(** * AuthenticationMiddleware: a shallow embedding and its properties

    The development follows [src/AuthenticationMiddleware.ts].  The class
    [AuthenticationMiddleware] keeps its fields in the record [This]; its
    methods are computations of a small monad [M] that threads [This], writes
    the calls made to collaborators (the chat transport, the OAuth2 library,
    the HTTP response, the console) to a trace, and stops at the first thrown
    value, keeping the fields and the trace as they were at that point.

    Conventions of the model.
    - A JavaScript string is a [string] (a sequence of bytes); the string
      methods used by the source are given on it in [Module JS],
      [toLowerCase] on the ASCII letters.
    - A field that the constructor never assigns ([magicCode], [sentCode],
      [currentAccessToken]) is [undefined] until its first assignment: it is
      an [option], [None] standing for [undefined].
    - [context.activity.text] has the declared type [string] and is modelled
      at that type.
    - The chat transport ([sendActivity], [next]), [res.send] and
      [console.log] return normally.  The caller's [onLoginSuccess] and the
      library's [create] may throw, and [getToken] may reject: their
      completion is part of the input.
    - An [await]ed call is one step: a turn and a callback do not
      interleave. *)

From Stdlib Require Import String Ascii List Bool Arith Lia NArith.
From Stdlib.Strings Require Import Byte.
Import ListNotations.
Local Open Scope string_scope.
Local Open Scope list_scope.

(** ** JavaScript values and built-ins used by the source *)

Module JS.

(** A thrown value. [TypeError p]: property [p] was read from [undefined].
    [URIError]: [decodeURIComponent] met a malformed sequence.
    [Other d]: any other value a collaborator throws or rejects with. *)
Inductive Error : Type :=
| TypeError (property : string)
| URIError
| Other (description : string).

(** How a call ends: with a value, or by throwing. *)
Inductive Completion (A : Type) : Type :=
| Normal (value : A)
| Throw (error : Error).
Arguments Normal {A} value.
Arguments Throw {A} error.

Definition is_throw {A : Type} (c : Completion A) : bool :=
  match c with Normal _ => false | Throw _ => true end.

(** Truthiness of the values the source tests in a condition. *)
Definition truthy_string (s : string) : bool :=
  match s with EmptyString => false | String _ _ => true end.

Definition truthy_opt_string (s : option string) : bool :=
  match s with Some s' => truthy_string s' | None => false end.

Definition truthy_opt_bool (b : option bool) : bool :=
  match b with Some b' => b' | None => false end.

Definition truthy_opt {A : Type} (o : option A) : bool :=
  match o with Some _ => true | None => false end.

(** [String.prototype.toLowerCase], on the letters A to Z. *)
Definition lower_ascii (c : ascii) : ascii :=
  let n := nat_of_ascii c in
  if (Nat.leb 65 n && Nat.leb n 90)%bool then ascii_of_nat (n + 32) else c.

Fixpoint toLowerCase (s : string) : string :=
  match s with
  | EmptyString => EmptyString
  | String c rest => String (lower_ascii c) (toLowerCase rest)
  end.

(** [s.split(sep)] for a separator of one character: the segments between
    the occurrences of [sep], never an empty array. *)
Fixpoint split (sep : ascii) (s : string) : list string :=
  match s with
  | EmptyString => [EmptyString]
  | String c rest =>
      if Ascii.eqb c sep then EmptyString :: split sep rest
      else match split sep rest with
           | seg :: segs => String c seg :: segs
           | [] => [String c EmptyString]
           end
  end.

(** [s.slice(start)] for [start >= 0]: [s] without its first [start]
    characters, empty when [s] is shorter. *)
Fixpoint slice (start : nat) (s : string) : string :=
  match start, s with
  | O, _ => s
  | S _, EmptyString => EmptyString
  | S n, String _ rest => slice n rest
  end.

(** [a[i].slice(start)]: reading [slice] from [undefined] throws. *)
Definition index_slice (a : list string) (i start : nat) : Completion string :=
  match nth_error a i with
  | Some seg => Normal (slice start seg)
  | None => Throw (TypeError "slice")
  end.

(** [buffer.toString('hex')]: two lower-case digits for each byte. *)
Definition hex_digit (n : N) : ascii :=
  match n with
  | 0%N => "0" | 1%N => "1" | 2%N => "2" | 3%N => "3" | 4%N => "4"
  | 5%N => "5" | 6%N => "6" | 7%N => "7" | 8%N => "8" | 9%N => "9"
  | 10%N => "a" | 11%N => "b" | 12%N => "c" | 13%N => "d" | 14%N => "e"
  | _ => "f"
  end%char.

Definition is_hex_digit (c : ascii) : bool :=
  let n := nat_of_ascii c in
  ((Nat.leb 48 n && Nat.leb n 57) || (Nat.leb 97 n && Nat.leb n 102))%bool.

Fixpoint toString_hex (buffer : list byte) : string :=
  match buffer with
  | [] => EmptyString
  | b :: rest =>
      let n := Byte.to_N b in
      String (hex_digit (N.div n 16))
        (String (hex_digit (N.modulo n 16)) (toString_hex rest))
  end.

(** [crypto.randomBytes(n)]: [n] bytes drawn from the system's entropy,
    here a sequence of bytes given with the call. *)
Definition randomBytes (n : nat) (entropy : nat -> byte) : list byte :=
  map entropy (seq 0 n).

Fixpoint all_chars (p : ascii -> bool) (s : string) : bool :=
  match s with
  | EmptyString => true
  | String c rest => (p c && all_chars p rest)%bool
  end.

Definition has_char (c : ascii) (s : string) : bool :=
  negb (all_chars (fun d => negb (Ascii.eqb d c)) s).

End JS.
Import JS.


(** ** Data model *)

(** Modelled from the spec: the enumeration [StrategyType] is declared in
    [./interfaces], which is not among the sources.  The source names its
    three members and uses them as strings (the [state] of an authorization
    URL, the labels of a [switch] over a string). *)
Inductive StrategyType : Type := ActiveDirectory | Facebook | Github.

(** Modelled from the spec: [ProviderConfig] of [./interfaces], with the
    fields the source reads: [clientId], [clientSecret], and the optional
    [scopes] and [buttonText]. *)
Record ProviderConfig : Type := {
  clientId : string;
  clientSecret : string;
  scopes : option (list string);
  buttonText : option string
}.

(** Modelled from the spec: one entry of [KnownEndpointsConfig]. *)
Record ProviderEndpoints : Type := {
  tokenBaseUrl : string;
  tokenEndpoint : string;
  authorizationBaseUrl : string;
  authorizationEndpoint : string
}.

(** Modelled from the spec: [KnownEndpointsConfig] of [./interfaces]. *)
Record KnownEndpointsConfig : Type := {
  known_facebook : ProviderEndpoints;
  known_activeDirectory : ProviderEndpoints;
  known_github : ProviderEndpoints
}.

(** [ModuleOptions] of simple-oauth2, with the fields the source fills. *)
Record ModuleOptions : Type := {
  client_id : string;
  client_secret : string;
  auth_authorizeHost : option string;
  auth_authorizePath : option string;
  auth_tokenHost : string;
  auth_tokenPath : option string
}.

(** The argument of [authorizationCode.authorizeURL]. *)
Record AuthorizeParams : Type := {
  redirect_uri : string;
  scope : list string;
  state : string
}.

(** The argument of [authorizationCode.getToken]. *)
Record TokenConfig : Type := {
  code : string;
  token_redirect_uri : string
}.

(** botbuilder: the part of an incoming activity the source reads. *)
Record Activity : Type := {
  activity_type : string;
  activity_text : string
}.

Record TurnContext : Type := { activity : Activity }.

(** botbuilder: a card action, a thumbnail card ([CardFactory.thumbnailCard]
    with a title, no image and buttons) and the message that carries it
    ([MessageFactory.attachment]). *)
Record CardAction : Type := {
  action_type : string;
  action_value : string;
  action_title : string
}.

Record Attachment : Type := {
  card_title : string;
  card_buttons : list CardAction
}.

Record PartialActivity : Type := { attachments : list Attachment }.

Definition thumbnailCard (title : string) (buttons : list CardAction) : Attachment :=
  {| card_title := title; card_buttons := buttons |}.

Definition MessageFactory_attachment (card : Attachment) : PartialActivity :=
  {| attachments := [card] |}.

(** What [context.sendActivity] is given: a text or an activity. *)
Inductive ActivityOrText : Type :=
| Text (text : string)
| Act (message : PartialActivity).

(** The collaborators that the source calls and does not define: the
    simple-oauth2 client, the platform's [decodeURIComponent], and the string
    values of [StrategyType]. *)
Class Collaborators : Type := {
  OAuthClient : Type;
  AccessToken : Type;
  TokenResult : Type;
  createOAuth : ModuleOptions -> Completion OAuthClient;
  authorizeURL : OAuthClient -> AuthorizeParams -> string;
  accessToken_create : OAuthClient -> TokenResult -> AccessToken;
  decodeURIComponent : string -> Completion string;
  StrategyType_value : StrategyType -> string
}.

Section Middleware.

Context {collaborators : Collaborators}.

(** Modelled from the spec: [AuthenticationConfig] of [./interfaces], with
    the fields the source reads.  The two functions are the caller's;
    [onLoginSuccess] is awaited and may reject. *)
Record AuthenticationConfig : Type := {
  facebook : option ProviderConfig;
  activeDirectory : option ProviderConfig;
  github : option ProviderConfig;
  noUserFoundMessage : option string;
  userIsAuthenticated : TurnContext -> bool;
  onLoginSuccess : TurnContext -> option AccessToken -> Completion unit
}.

Record OAuthClients : Type := {
  facebookOAuthClient : OAuthClient;
  activeDirectoryOAuthClient : OAuthClient;
  githubOAuthClient : OAuthClient
}.

(** The fields of an [AuthenticationMiddleware].  [server] and [adapter] are
    handles the methods below never read. *)
Record This : Type := {
  knownEndpoints : KnownEndpointsConfig;
  authenticationConfig : AuthenticationConfig;
  callbackURL : string;
  oauthClients : OAuthClients;
  authenticated : bool;
  magicCode : option string;
  currentAccessToken : option AccessToken;
  sentCode : option bool
}.

(** How the promise of [getToken] settles. *)
Inductive Settled : Type :=
| Resolved (result : TokenResult)
| Rejected (error : Error).

(** A call made to a collaborator.  [ResSend]: restify's [res.send] with a
    body alone answers with the response's status code, which is 200 unless
    set, and the handler never sets it. *)
Inductive Event : Type :=
| SendActivity (context : TurnContext) (activityOrText : ActivityOrText)
| OnLoginSuccess (context : TurnContext) (accessToken : option AccessToken)
| Next
| GetToken (client : OAuthClient) (tokenConfig : TokenConfig)
| ResSend (statusCode : nat) (body : string)
| ConsoleLog (label : string) (error : Error).

(** ** The monad of methods *)

Record Outcome (A : Type) : Type := {
  completion : Completion A;
  final : This;
  trace : list Event
}.
Arguments completion {A} _.
Arguments final {A} _.
Arguments trace {A} _.

Definition M (A : Type) : Type := This -> Outcome A.

Definition ret {A : Type} (a : A) : M A :=
  fun this => {| completion := Normal a; final := this; trace := [] |}.

Definition bind {A B : Type} (m : M A) (k : A -> M B) : M B :=
  fun this =>
    let o := m this in
    match completion o with
    | Normal a =>
        let o' := k a (final o) in
        {| completion := completion o'; final := final o';
           trace := trace o ++ trace o' |}
    | Throw e => {| completion := Throw e; final := final o; trace := trace o |}
    end.

Definition lift {A : Type} (c : Completion A) : M A :=
  fun this => {| completion := c; final := this; trace := [] |}.

Definition read {A : Type} (field : This -> A) : M A :=
  fun this => {| completion := Normal (field this); final := this; trace := [] |}.

Definition assign (update : This -> This) : M unit :=
  fun this => {| completion := Normal tt; final := update this; trace := [] |}.

Definition emit (e : Event) : M unit :=
  fun this => {| completion := Normal tt; final := this; trace := [e] |}.

(** The same sequencing for code that has no [this] yet. *)
Definition bindC {A B : Type} (c : Completion A) (k : A -> Completion B) : Completion B :=
  match c with
  | Normal a => k a
  | Throw e => Throw e
  end.

End Middleware.

Arguments completion {collaborators A} _.
Arguments final {collaborators A} _.
Arguments trace {collaborators A} _.

Declare Scope method_scope.
Delimit Scope method_scope with method.
Notation "x <- m ;; k" := (bind m (fun x => k))
  (at level 61, m at next level, right associativity) : method_scope.
Notation "m ;; k" := (bind m (fun _ => k))
  (at level 61, right associativity) : method_scope.
Notation "x <-! c ;; k" := (bindC c (fun x => k))
  (at level 61, c at next level, right associativity) : method_scope.

(** ** The methods of [AuthenticationMiddleware] *)

Section Methods.

Context {collaborators : Collaborators}.
Local Open Scope method_scope.

(** Assignments to the three fields that hold the pending authentication. *)
Definition set_magicCode (v : option string) (this : This) : This :=
  {| knownEndpoints := knownEndpoints this;
     authenticationConfig := authenticationConfig this;
     callbackURL := callbackURL this;
     oauthClients := oauthClients this;
     authenticated := authenticated this;
     magicCode := v;
     currentAccessToken := currentAccessToken this;
     sentCode := sentCode this |}.

Definition set_currentAccessToken (v : option AccessToken) (this : This) : This :=
  {| knownEndpoints := knownEndpoints this;
     authenticationConfig := authenticationConfig this;
     callbackURL := callbackURL this;
     oauthClients := oauthClients this;
     authenticated := authenticated this;
     magicCode := magicCode this;
     currentAccessToken := v;
     sentCode := sentCode this |}.

Definition set_sentCode (v : option bool) (this : This) : This :=
  {| knownEndpoints := knownEndpoints this;
     authenticationConfig := authenticationConfig this;
     callbackURL := callbackURL this;
     oauthClients := oauthClients this;
     authenticated := authenticated this;
     magicCode := magicCode this;
     currentAccessToken := currentAccessToken this;
     sentCode := v |}.

(** [x ? x : d] for an optional array (an array is truthy, also when empty)
    and for an optional string (the empty string is falsy). *)
Definition array_or (x : option (list string)) (d : list string) : list string :=
  match x with Some a => a | None => d end.

Definition string_or (x : option string) (d : string) : string :=
  match x with
  | Some s => if truthy_string s then s else d
  | None => d
  end.

(** [createOAuthClients], lines 138 to 200: three placeholder clients, then
    one client for each provider the configuration has.  The method assigns
    [this.oauthClients]; here it returns what the field holds at its end. *)
Definition createOAuthClients (knownEndpoints : KnownEndpointsConfig)
    (authenticationConfig : AuthenticationConfig) : Completion OAuthClients :=
  let initializationModule :=
    {| client_id := ""; client_secret := "";
       auth_authorizeHost := None; auth_authorizePath := None;
       auth_tokenHost := tokenBaseUrl (known_activeDirectory knownEndpoints);
       auth_tokenPath := None |} in
  f0 <-! createOAuth initializationModule ;;
  a0 <-! createOAuth initializationModule ;;
  g0 <-! createOAuth initializationModule ;;
  let oauthClients :=
    {| facebookOAuthClient := f0; activeDirectoryOAuthClient := a0;
       githubOAuthClient := g0 |} in
  oauthClients <-!
    match facebook authenticationConfig with
    | Some fb =>
        let facebookCredentials :=
          {| client_id := clientId fb; client_secret := clientSecret fb;
             auth_authorizeHost := Some (authorizationBaseUrl (known_facebook knownEndpoints));
             auth_authorizePath := Some (authorizationEndpoint (known_facebook knownEndpoints));
             auth_tokenHost := tokenBaseUrl (known_facebook knownEndpoints);
             auth_tokenPath := Some (tokenEndpoint (known_facebook knownEndpoints)) |} in
        c <-! createOAuth facebookCredentials ;;
        Normal {| facebookOAuthClient := c;
                  activeDirectoryOAuthClient := activeDirectoryOAuthClient oauthClients;
                  githubOAuthClient := githubOAuthClient oauthClients |}
    | None => Normal oauthClients
    end ;;
  oauthClients <-!
    match activeDirectory authenticationConfig with
    | Some ad =>
        let activeDirectoryCredentials :=
          {| client_id := clientId ad; client_secret := clientSecret ad;
             auth_authorizeHost := Some (authorizationBaseUrl (known_activeDirectory knownEndpoints));
             auth_authorizePath := Some (authorizationEndpoint (known_activeDirectory knownEndpoints));
             auth_tokenHost := tokenBaseUrl (known_activeDirectory knownEndpoints);
             auth_tokenPath := Some (tokenEndpoint (known_activeDirectory knownEndpoints)) |} in
        c <-! createOAuth activeDirectoryCredentials ;;
        Normal {| facebookOAuthClient := facebookOAuthClient oauthClients;
                  activeDirectoryOAuthClient := c;
                  githubOAuthClient := githubOAuthClient oauthClients |}
    | None => Normal oauthClients
    end ;;
  match github authenticationConfig with
  | Some gh =>
      let githubCredentials :=
        {| client_id := clientId gh; client_secret := clientSecret gh;
           auth_authorizeHost := Some (authorizationBaseUrl (known_github knownEndpoints));
           auth_authorizePath := Some (authorizationEndpoint (known_github knownEndpoints));
           auth_tokenHost := tokenBaseUrl (known_github knownEndpoints);
           auth_tokenPath := Some (tokenEndpoint (known_github knownEndpoints)) |} in
      c <-! createOAuth githubCredentials ;;
      Normal {| facebookOAuthClient := facebookOAuthClient oauthClients;
                activeDirectoryOAuthClient := activeDirectoryOAuthClient oauthClients;
                githubOAuthClient := c |}
  | None => Normal oauthClients
  end.

(** The table the constructor writes to [this.knownEndpoints], lines 30 to 49. *)
Definition knownEndpoints_table : KnownEndpointsConfig :=
  {| known_facebook :=
       {| tokenBaseUrl := "https://graph.facebook.com";
          tokenEndpoint := "/v3.0/oauth/access_token";
          authorizationBaseUrl := "https://www.facebook.com";
          authorizationEndpoint := "/v3.0/dialog/oauth" |};
     known_activeDirectory :=
       {| tokenBaseUrl := "https://login.microsoftonline.com";
          tokenEndpoint := "/common/oauth2/v2.0/token";
          authorizationBaseUrl := "https://login.microsoftonline.com";
          authorizationEndpoint := "/common/oauth2/v2.0/authorize" |};
     known_github :=
       {| tokenBaseUrl := "https://github.com";
          tokenEndpoint := "/login/oauth/access_token";
          authorizationBaseUrl := "https://github.com";
          authorizationEndpoint := "/login/oauth/authorize" |} |}.

(** The constructor, lines 25 to 54.  [createRedirectEndpoint] registers
    [auth_callback] below for GET /auth/callback and changes no field.
    [magicCode], [currentAccessToken] and [sentCode] are not assigned. *)
Definition constructor (authenticationConfig : AuthenticationConfig) : Completion This :=
  clients <-! createOAuthClients knownEndpoints_table authenticationConfig ;;
  Normal {| knownEndpoints := knownEndpoints_table;
            authenticationConfig := authenticationConfig;
            callbackURL := "http://localhost:3978/auth/callback";
            oauthClients := clients;
            authenticated := false;
            magicCode := None;
            currentAccessToken := None;
            sentCode := None |}.

(** [createAuthenticationCard], lines 202 to 238. *)
Definition createAuthenticationCard (this : This) (context : TurnContext) : PartialActivity :=
  let cardActions : list CardAction := [] in
  let cardActions :=
    match facebook (authenticationConfig this) with
    | Some fb =>
        let facebookAuthorizationUri :=
          authorizeURL (facebookOAuthClient (oauthClients this))
            {| redirect_uri := callbackURL this;
               scope := array_or (scopes fb) ["public_profile"];
               state := StrategyType_value Facebook |} in
        let facebookButtonTitle := string_or (buttonText fb) "Log in with Facebook" in
        cardActions ++ [ {| action_type := "openUrl";
                            action_value := facebookAuthorizationUri;
                            action_title := facebookButtonTitle |} ]
    | None => cardActions
    end in
  let cardActions :=
    match activeDirectory (authenticationConfig this) with
    | Some ad =>
        let activeDirectoryAuthorizationUri :=
          authorizeURL (activeDirectoryOAuthClient (oauthClients this))
            {| redirect_uri := callbackURL this;
               scope := array_or (scopes ad) ["User.Read"];
               state := StrategyType_value ActiveDirectory |} in
        let activeDirectoryButtonTitle := string_or (buttonText ad) "Log in with Microsoft" in
        cardActions ++ [ {| action_type := "openUrl";
                            action_value := activeDirectoryAuthorizationUri;
                            action_title := activeDirectoryButtonTitle |} ]
    | None => cardActions
    end in
  let cardActions :=
    match github (authenticationConfig this) with
    | Some gh =>
        let githubAuthorizationUri :=
          authorizeURL (githubOAuthClient (oauthClients this))
            {| redirect_uri := callbackURL this;
               scope := array_or (scopes gh) ["user"];
               state := StrategyType_value Github |} in
        let githubButtonTitle := string_or (buttonText gh) "Log in with GitHub" in
        cardActions ++ [ {| action_type := "openUrl";
                            action_value := githubAuthorizationUri;
                            action_title := githubButtonTitle |} ]
    | None => cardActions
    end in
  let card := thumbnailCard "" cardActions in
  MessageFactory_attachment card.

(** [context.sendActivity], [next()] and the call of the caller's
    [onLoginSuccess]: the call is written to the trace; [onLoginSuccess]
    then completes as the caller's function does. *)
Definition sendActivity (context : TurnContext) (a : ActivityOrText) : M unit :=
  emit (SendActivity context a).

Definition next : M unit := emit Next.

Definition call_onLoginSuccess (context : TurnContext)
    (accessToken : option AccessToken) : M unit :=
  emit (OnLoginSuccess context accessToken) ;;
  config <- read authenticationConfig ;;
  lift (onLoginSuccess config context accessToken).

(** [handleMagicCode], lines 79 to 96.  [this.magicCode.toLowerCase()]
    throws when the field is [undefined]. *)
Definition handleMagicCode (context : TurnContext) : M unit :=
  let submittedCode := activity_text (activity context) in
  magic <- read magicCode ;;
  lowered <- lift (match magic with
                   | Some m => Normal (toLowerCase m)
                   | None => Throw (TypeError "toLowerCase")
                   end) ;;
  if String.eqb (toLowerCase submittedCode) lowered then
    accessToken <- read currentAccessToken ;;
    call_onLoginSuccess context accessToken ;;
    assign (set_magicCode (Some "")) ;;
    assign (set_sentCode (Some false)) ;;
    assign (set_currentAccessToken None) ;;
    sendActivity context (Text "Authentication Success")
  else
    assign (set_magicCode (Some "")) ;;
    assign (set_sentCode (Some false)) ;;
    assign (set_currentAccessToken None) ;;
    sendActivity context (Text "Authentication Failure").

(** [onTurn], lines 56 to 77. *)
Definition onTurn (context : TurnContext) : M unit :=
  if String.eqb (activity_type (activity context)) "message" then
    config <- read authenticationConfig ;;
    if negb (userIsAuthenticated config context) then
      sent <- read sentCode ;;
      if negb (truthy_opt_bool sent) then
        match noUserFoundMessage config with
        | Some notice =>
            if truthy_string notice then sendActivity context (Text notice)
            else ret tt
        | None => ret tt
        end ;;
        card <- read (fun this => createAuthenticationCard this context) ;;
        sendActivity context (Act card)
      else
        handleMagicCode context
    else
      next
  else
    next.

(** The [switch] over [state], lines 109 to 122: the first label equal to
    [state] selects the client, and [default] selects the directory one. *)
Definition selectOAuthClient (clients : OAuthClients) (state : string) : OAuthClient :=
  if String.eqb state (StrategyType_value ActiveDirectory) then
    activeDirectoryOAuthClient clients
  else if String.eqb state (StrategyType_value Facebook) then
    facebookOAuthClient clients
  else if String.eqb state (StrategyType_value Github) then
    githubOAuthClient clients
  else
    activeDirectoryOAuthClient clients.

(** The handler that [createRedirectEndpoint] registers, lines 100 to 136,
    in its three parts.  [callback_request]: the synchronous part, from the
    query string ([req.query()], the raw string) to the call of [getToken]. *)
Definition callback_request (query : string) : M (OAuthClient * TokenConfig) :=
  code <- lift (index_slice (split "&" query) 0 5) ;;
  url <- read callbackURL ;;
  let tokenConfig := {| code := code; token_redirect_uri := url |} in
  raw <- lift (index_slice (split "&" query) 1 6) ;;
  state <- lift (decodeURIComponent raw) ;;
  clients <- read oauthClients ;;
  let selectedOAuthClient := selectOAuthClient clients state in
  emit (GetToken selectedOAuthClient tokenConfig) ;;
  ret (selectedOAuthClient, tokenConfig).

(** The [then] callback, lines 125 to 132. *)
Definition callback_then (selectedOAuthClient : OAuthClient) (result : TokenResult)
    (entropy : nat -> byte) : M unit :=
  let accessToken := accessToken_create selectedOAuthClient result in
  let magic := toString_hex (randomBytes 4 entropy) in
  assign (set_currentAccessToken (Some accessToken)) ;;
  assign (set_magicCode (Some magic)) ;;
  assign (set_sentCode (Some true)) ;;
  emit (ResSend 200 ("Please enter the code into the bot: " ++ magic)).

(** The [catch] callback, lines 133 to 135.  It also receives what the
    [then] callback throws; nothing in [callback_then] throws. *)
Definition callback_catch (error : Error) : M unit :=
  emit (ConsoleLog "Access Token Error" error).

(** One callback from its request to the settling of [getToken]. *)
Definition auth_callback (query : string) (settled : Settled)
    (entropy : nat -> byte) : M unit :=
  request <- callback_request query ;;
  match settled with
  | Resolved result => callback_then (fst request) result entropy
  | Rejected error => callback_catch error
  end.

End Methods.

(** ** Runs of the middleware *)

Section Runs.

Context {collaborators : Collaborators}.

(** The states an instance built from [config] goes through: each chat
    turn and each callback is one step, whether it returns or throws. *)
Inductive reachable (config : AuthenticationConfig) : This -> Prop :=
| reachable_new (this : This) :
    constructor config = Normal this -> reachable config this
| reachable_turn (this : This) (context : TurnContext) :
    reachable config this -> reachable config (final (onTurn context this))
| reachable_callback (this : This) (query : string) (settled : Settled)
    (entropy : nat -> byte) :
    reachable config this ->
    reachable config (final (auth_callback query settled entropy this)).

(** The turns of [contexts] one after the other: the fields after the last
    one and all the calls made. *)
Fixpoint run_turns (contexts : list TurnContext) (this : This) : This * list Event :=
  match contexts with
  | [] => (this, [])
  | context :: rest =>
      let o := onTurn context this in
      let r := run_turns rest (final o) in
      (fst r, trace o ++ snd r)
  end.

Definition is_onLoginSuccess (e : Event) : bool :=
  match e with OnLoginSuccess _ _ => true | _ => false end.

Definition is_next (e : Event) : bool :=
  match e with Next => true | _ => false end.

Definition count_onLoginSuccess (t : list Event) : nat :=
  length (filter is_onLoginSuccess t).

(** The fields once a submission has been handled, lines 85 to 87 and 91
    to 93. *)
Definition cleared (this : This) : This :=
  set_currentAccessToken None (set_sentCode (Some false) (set_magicCode (Some "") this)).

(** The fields once a token exchange has succeeded, lines 128 to 130. *)
Definition stored (accessToken : AccessToken) (magic : string) (this : This) : This :=
  set_sentCode (Some true)
    (set_magicCode (Some magic) (set_currentAccessToken (Some accessToken) this)).

(** What the gate sends on first contact: the notice when one is
    configured and not empty, then the card. *)
Definition login_prompt (this : This) (context : TurnContext) : list Event :=
  match noUserFoundMessage (authenticationConfig this) with
  | Some notice =>
      if truthy_string notice then [SendActivity context (Text notice)] else []
  | None => []
  end ++ [SendActivity context (Act (createAuthenticationCard this context))].

(** A pending authentication is stored when [magicCode] holds a code. *)
Definition no_pending (this : This) : Prop :=
  truthy_opt_string (magicCode this) = false.

(** What holds of the fields in every state an instance goes through:
    the configuration, the endpoints, the callback URL and the clients are
    those of the constructor, and a code is awaited exactly while a pending
    authentication is stored. *)
Definition invariant (config : AuthenticationConfig) (this : This) : Prop :=
  authenticationConfig this = config
  /\ knownEndpoints this = knownEndpoints_table
  /\ callbackURL this = "http://localhost:3978/auth/callback"
  /\ createOAuthClients knownEndpoints_table config = Normal (oauthClients this)
  /\ (truthy_opt_bool (sentCode this) = true ->
      exists magic,
        magicCode this = Some magic
        /\ String.length magic = 8
        /\ all_chars is_hex_digit magic = true
        /\ truthy_opt (currentAccessToken this) = true)
  /\ (truthy_opt_bool (sentCode this) = false ->
      no_pending this /\ currentAccessToken this = None).

(** *** The Login Card as the specification words it *)

Definition all_providers : list StrategyType := [Facebook; ActiveDirectory; Github].

Definition provider_config (config : AuthenticationConfig) (p : StrategyType)
    : option ProviderConfig :=
  match p with
  | Facebook => facebook config
  | ActiveDirectory => activeDirectory config
  | Github => github config
  end.

Definition provider_client (clients : OAuthClients) (p : StrategyType) : OAuthClient :=
  match p with
  | Facebook => facebookOAuthClient clients
  | ActiveDirectory => activeDirectoryOAuthClient clients
  | Github => githubOAuthClient clients
  end.

Definition provider_endpoints (known : KnownEndpointsConfig) (p : StrategyType)
    : ProviderEndpoints :=
  match p with
  | Facebook => known_facebook known
  | ActiveDirectory => known_activeDirectory known
  | Github => known_github known
  end.

Definition default_scope (p : StrategyType) : list string :=
  match p with
  | Facebook => ["public_profile"]
  | ActiveDirectory => ["User.Read"]
  | Github => ["user"]
  end.

Definition default_label (p : StrategyType) : string :=
  match p with
  | Facebook => "Log in with Facebook"
  | ActiveDirectory => "Log in with Microsoft"
  | Github => "Log in with GitHub"
  end.

Definition StrategyType_eqb (p q : StrategyType) : bool :=
  match p, q with
  | ActiveDirectory, ActiveDirectory => true
  | Facebook, Facebook => true
  | Github, Github => true
  | _, _ => false
  end.

(** The actions a message carries in its cards. *)
Definition card_actions (message : PartialActivity) : list CardAction :=
  flat_map card_buttons (attachments message).

(** The providers the configuration has, in the order of the card. *)
Definition configured_providers (config : AuthenticationConfig)
    : list (StrategyType * ProviderConfig) :=
  flat_map
    (fun p => match provider_config config p with
              | Some pc => [(p, pc)]
              | None => []
              end)
    all_providers.

Definition spec_scope (p : StrategyType) (pc : ProviderConfig) : list string :=
  match scopes pc with
  | Some configured => configured
  | None => default_scope p
  end.

Definition spec_label (p : StrategyType) (pc : ProviderConfig) : string :=
  match buttonText pc with
  | Some EmptyString => default_label p
  | Some label => label
  | None => default_label p
  end.

Definition spec_authorize_params (url : string) (entry : StrategyType * ProviderConfig)
    : AuthorizeParams :=
  {| redirect_uri := url;
     scope := spec_scope (fst entry) (snd entry);
     state := StrategyType_value (fst entry) |}.

Definition spec_action (this : This) (entry : StrategyType * ProviderConfig) : CardAction :=
  {| action_type := "openUrl";
     action_value :=
       authorizeURL (provider_client (oauthClients this) (fst entry))
         (spec_authorize_params (callbackURL this) entry);
     action_title := spec_label (fst entry) (snd entry) |}.

(** *** The client set as the specification words it *)

Definition placeholder_options (known : KnownEndpointsConfig) : ModuleOptions :=
  {| client_id := ""; client_secret := "";
     auth_authorizeHost := None; auth_authorizePath := None;
     auth_tokenHost := tokenBaseUrl (known_activeDirectory known);
     auth_tokenPath := None |}.

Definition provider_options (known : KnownEndpointsConfig)
    (entry : StrategyType * ProviderConfig) : ModuleOptions :=
  let e := provider_endpoints known (fst entry) in
  {| client_id := clientId (snd entry); client_secret := clientSecret (snd entry);
     auth_authorizeHost := Some (authorizationBaseUrl e);
     auth_authorizePath := Some (authorizationEndpoint e);
     auth_tokenHost := tokenBaseUrl e;
     auth_tokenPath := Some (tokenEndpoint e) |}.

(** The options records handed to the library's [create], in call order. *)
Definition requested_options (known : KnownEndpointsConfig)
    (config : AuthenticationConfig) : list ModuleOptions :=
  [placeholder_options known; placeholder_options known; placeholder_options known]
  ++ map (provider_options known) (configured_providers config).

(** The options from which the client of provider [p] ends up built. *)
Definition client_options (known : KnownEndpointsConfig)
    (config : AuthenticationConfig) (p : StrategyType) : ModuleOptions :=
  match provider_config config p with
  | Some pc => provider_options known (p, pc)
  | None => placeholder_options known
  end.

End Runs.

(** ** A sample of the collaborators and of the inputs

    For running the model: a client is the options it was created from, an
    access token is the client with the raw result, [create] accepts every
    options record (as the library does the placeholder record of line 140,
    whose credentials are empty), and [decodeURIComponent] decodes the
    escapes of single bytes. *)

Module Sample.

Definition hex_value (c : ascii) : option nat :=
  let n := nat_of_ascii c in
  if (Nat.leb 48 n && Nat.leb n 57)%bool then Some (n - 48)
  else if (Nat.leb 97 n && Nat.leb n 102)%bool then Some (n - 87)
  else if (Nat.leb 65 n && Nat.leb n 70)%bool then Some (n - 55)
  else None.

Fixpoint percent_decode (s : string) : Completion string :=
  match s with
  | EmptyString => Normal EmptyString
  | String c rest =>
      if Ascii.eqb c "%" then
        match rest with
        | String h (String l rest') =>
            match hex_value h, hex_value l with
            | Some x, Some y =>
                match percent_decode rest' with
                | Normal r => Normal (String (ascii_of_nat (16 * x + y)) r)
                | Throw e => Throw e
                end
            | _, _ => Throw URIError
            end
        | _ => Throw URIError
        end
      else
        match percent_decode rest with
        | Normal r => Normal (String c r)
        | Throw e => Throw e
        end
  end.

Definition strategy_name (p : StrategyType) : string :=
  match p with
  | ActiveDirectory => "ActiveDirectory"
  | Facebook => "Facebook"
  | Github => "Github"
  end.

Definition or_empty (x : option string) : string :=
  match x with Some s => s | None => "" end.

Definition sample_authorizeURL (client : ModuleOptions) (p : AuthorizeParams) : string :=
  or_empty (auth_authorizeHost client) ++ or_empty (auth_authorizePath client)
  ++ "?client_id=" ++ client_id client
  ++ "&redirect_uri=" ++ redirect_uri p
  ++ "&scope=" ++ String.concat "," (scope p)
  ++ "&state=" ++ state p.

Definition collaborators : Collaborators :=
  {| OAuthClient := ModuleOptions;
     AccessToken := ModuleOptions * string;
     TokenResult := string;
     createOAuth := fun options => Normal options;
     authorizeURL := sample_authorizeURL;
     accessToken_create := fun client result => (client, result);
     decodeURIComponent := percent_decode;
     StrategyType_value := strategy_name |}.

#[local] Existing Instance collaborators.

Definition provider (id secret : string) : ProviderConfig :=
  {| clientId := id; clientSecret := secret; scopes := None; buttonText := None |}.

(** Facebook and GitHub configured, nobody authenticated yet. *)
Definition config : AuthenticationConfig :=
  {| facebook := Some (provider "fb-id" "fb-secret");
     activeDirectory := None;
     github := Some (provider "gh-id" "gh-secret");
     noUserFoundMessage := Some "Please log in";
     userIsAuthenticated := fun _ => false;
     onLoginSuccess := fun _ _ => Normal tt |}.

(** The same with Facebook's credentials left empty, and with the secret
    alone left empty. *)
Definition config_without_credentials : AuthenticationConfig :=
  {| facebook := Some (provider "" "");
     activeDirectory := None;
     github := None;
     noUserFoundMessage := None;
     userIsAuthenticated := fun _ => false;
     onLoginSuccess := fun _ _ => Normal tt |}.

Definition config_without_secret : AuthenticationConfig :=
  {| facebook := Some (provider "fb-id" "");
     activeDirectory := None;
     github := None;
     noUserFoundMessage := None;
     userIsAuthenticated := fun _ => false;
     onLoginSuccess := fun _ _ => Normal tt |}.

(** The instance [new AuthenticationMiddleware(server, adapter, config)]. *)
Definition fresh : This :=
  {| knownEndpoints := knownEndpoints_table;
     authenticationConfig := config;
     callbackURL := "http://localhost:3978/auth/callback";
     oauthClients :=
       {| facebookOAuthClient := client_options knownEndpoints_table config Facebook;
          activeDirectoryOAuthClient :=
            client_options knownEndpoints_table config ActiveDirectory;
          githubOAuthClient := client_options knownEndpoints_table config Github |};
     authenticated := false;
     magicCode := None;
     currentAccessToken := None;
     sentCode := None |}.

Definition message (text : string) : TurnContext :=
  {| activity := {| activity_type := "message"; activity_text := text |} |}.

Definition entropy (i : nat) : byte := nth i [xa1; xb2; xc3; xd4] x00.

Definition token : AccessToken :=
  (client_options knownEndpoints_table config Github, "raw-token").

(** [fresh] after a callback whose exchange succeeded. *)
Definition pending : This := stored token "a1b2c3d4" fresh.

End Sample.

(** ** Further notions for whole runs *)

Section Whole_runs.

Context {collaborators : Collaborators}.

(** The fields that only the constructor assigns. *)
Definition same_setup (a b : This) : Prop :=
  knownEndpoints a = knownEndpoints b
  /\ authenticationConfig a = authenticationConfig b
  /\ callbackURL a = callbackURL b
  /\ oauthClients a = oauthClients b
  /\ authenticated a = authenticated b.

(** The condition under which [onTurn] reaches one of its two [next()]:
    the activity is no message (line 73) or the caller's predicate holds
    (line 69). *)
Definition passes (this : This) (context : TurnContext) : bool :=
  (negb (String.eqb (activity_type (activity context)) "message")
   || userIsAuthenticated (authenticationConfig this) context)%bool.

(** The three identifiers are three different strings. *)
Definition distinct_identifiers : Prop :=
  StrategyType_value Facebook <> StrategyType_value ActiveDirectory
  /\ StrategyType_value Github <> StrategyType_value ActiveDirectory
  /\ StrategyType_value Github <> StrategyType_value Facebook.

End Whole_runs.

(** The sample instance again, with a caller whose [onLoginSuccess]
    rejects. *)
Module Rejecting.

#[local] Existing Instance Sample.collaborators.

Definition config : AuthenticationConfig :=
  {| facebook := Some (Sample.provider "fb-id" "fb-secret");
     activeDirectory := None;
     github := Some (Sample.provider "gh-id" "gh-secret");
     noUserFoundMessage := Some "Please log in";
     userIsAuthenticated := fun _ => false;
     onLoginSuccess := fun _ _ => Throw (Other "token store unavailable") |}.

Definition fresh : This :=
  {| knownEndpoints := knownEndpoints_table;
     authenticationConfig := config;
     callbackURL := "http://localhost:3978/auth/callback";
     oauthClients := oauthClients Sample.fresh;
     authenticated := false;
     magicCode := None;
     currentAccessToken := None;
     sentCode := None |}.

Definition pending : This := stored Sample.token "a1b2c3d4" fresh.

End Rejecting.

(** Collaborators whose [create] refuses an empty client id. *)
Module Strict.

Definition create (options : ModuleOptions) : Completion ModuleOptions :=
  if truthy_string (client_id options) then Normal options
  else Throw (Other "client.id is not allowed to be empty").

Definition collaborators : Collaborators :=
  {| OAuthClient := ModuleOptions;
     AccessToken := ModuleOptions * string;
     TokenResult := string;
     createOAuth := create;
     authorizeURL := Sample.sample_authorizeURL;
     accessToken_create := fun client result => (client, result);
     decodeURIComponent := Sample.percent_decode;
     StrategyType_value := Sample.strategy_name |}.

#[local] Existing Instance collaborators.

Definition config : AuthenticationConfig :=
  {| facebook := Some (Sample.provider "fb-id" "fb-secret");
     activeDirectory := Some (Sample.provider "ad-id" "ad-secret");
     github := Some (Sample.provider "gh-id" "gh-secret");
     noUserFoundMessage := None;
     userIsAuthenticated := fun _ => false;
     onLoginSuccess := fun _ _ => Normal tt |}.

End Strict.

(** * Properties *)

(** ** The built-ins *)

Example split_two : split "&" "code=abc&state=Github" = ["code=abc"; "state=Github"].
Proof. reflexivity. Qed.

Example split_empty : split "&" "" = [""].
Proof. reflexivity. Qed.

Example slice_short : slice 5 "abc" = "".
Proof. reflexivity. Qed.

Example lower_mixed : toLowerCase "A1B2C3D4" = "a1b2c3d4".
Proof. reflexivity. Qed.

Example hex_of_sample : toString_hex (randomBytes 4 Sample.entropy) = "a1b2c3d4".
Proof. reflexivity. Qed.

Lemma split_cons (sep : ascii) (s : string) :
  exists seg segs, split sep s = seg :: segs.
Proof.
  induction s as [|c rest IH]; simpl.
  - now exists EmptyString, [].
  - destruct (Ascii.eqb c sep).
    + now exists EmptyString, (split sep rest).
    + destruct IH as (seg & segs & ->). now exists (String c seg), segs.
Qed.

Lemma split_without (sep : ascii) (s : string) :
  has_char sep s = false -> split sep s = [s].
Proof.
  unfold has_char. induction s as [|c rest IH]; simpl; intros H.
  - reflexivity.
  - apply negb_false_iff, andb_true_iff in H. destruct H as [Hc Hrest].
    apply negb_true_iff in Hc. rewrite Hc.
    rewrite IH; [reflexivity | now rewrite Hrest].
Qed.

Lemma split_at_first (sep : ascii) (a b : string) :
  has_char sep a = false ->
  split sep (a ++ String sep b) = a :: split sep b.
Proof.
  unfold has_char. induction a as [|c rest IH]; simpl; intros H.
  - now rewrite Ascii.eqb_refl.
  - apply negb_false_iff, andb_true_iff in H. destruct H as [Hc Hrest].
    apply negb_true_iff in Hc. rewrite Hc.
    rewrite IH; [reflexivity | now rewrite Hrest].
Qed.

Lemma append_empty (s : string) : (s ++ "")%string = s.
Proof. induction s as [|c rest IH]; simpl; [reflexivity | now rewrite IH]. Qed.

Lemma slice_prefix (prefix s : string) :
  slice (String.length prefix) (prefix ++ s) = s.
Proof. induction prefix as [|c rest IH]; simpl; [now destruct s | exact IH]. Qed.

Lemma length_toString_hex (buffer : list byte) :
  String.length (toString_hex buffer) = 2 * List.length buffer.
Proof. induction buffer as [|b rest IH]; simpl; [reflexivity | rewrite IH; lia]. Qed.

Lemma length_randomBytes (n : nat) (entropy : nat -> byte) :
  List.length (randomBytes n entropy) = n.
Proof. unfold randomBytes. now rewrite length_map, length_seq. Qed.

Lemma hex_digits_of_byte (b : byte) :
  is_hex_digit (hex_digit (N.div (Byte.to_N b) 16)) = true
  /\ is_hex_digit (hex_digit (N.modulo (Byte.to_N b) 16)) = true.
Proof. destruct b; split; reflexivity. Qed.

Lemma toString_hex_digits (buffer : list byte) :
  all_chars is_hex_digit (toString_hex buffer) = true.
Proof.
  induction buffer as [|b rest IH]; simpl; [reflexivity|].
  destruct (hex_digits_of_byte b) as [-> ->]. exact IH.
Qed.

Lemma truthy_of_length (s : string) :
  0 < String.length s -> truthy_string s = true.
Proof. destruct s; simpl; [lia | reflexivity]. Qed.

(** ** Equations of the monad *)

Section Equations_of_the_monad.

Context {collaborators : Collaborators}.

Lemma outcome_eta {A : Type} (o : Outcome A) :
  {| completion := completion o; final := final o; trace := trace o |} = o.
Proof. now destruct o. Qed.

Lemma bind_read {A B : Type} (field : This -> A) (k : A -> M B) (this : This) :
  bind (read field) k this = k (field this) this.
Proof. unfold bind, read. simpl. apply outcome_eta. Qed.

Lemma bind_lift_normal {A B : Type} (a : A) (k : A -> M B) (this : This) :
  bind (lift (Normal a)) k this = k a this.
Proof. unfold bind, lift. simpl. apply outcome_eta. Qed.

Lemma bind_lift_throw {A B : Type} (e : Error) (k : A -> M B) (this : This) :
  bind (lift (Throw e)) k this = {| completion := Throw e; final := this; trace := [] |}.
Proof. reflexivity. Qed.

Lemma bind_ret {A B : Type} (a : A) (k : A -> M B) (this : This) :
  bind (ret a) k this = k a this.
Proof. unfold bind, ret. simpl. apply outcome_eta. Qed.

Lemma bind_assign {B : Type} (update : This -> This) (k : unit -> M B) (this : This) :
  bind (assign update) k this = k tt (update this).
Proof. unfold bind, assign. simpl. apply outcome_eta. Qed.

Lemma bind_emit {B : Type} (e : Event) (k : unit -> M B) (this : This) :
  bind (emit e) k this =
    {| completion := completion (k tt this); final := final (k tt this);
       trace := e :: trace (k tt this) |}.
Proof. reflexivity. Qed.

Lemma bind_assoc {A B C : Type} (m : M A) (k : A -> M B) (h : B -> M C) (this : This) :
  bind (bind m k) h this = bind m (fun a => bind (k a) h) this.
Proof.
  unfold bind. destruct (m this) as [[a|e] f t]; simpl; [|reflexivity].
  destruct (k a f) as [[b|e] f' t']; simpl; [|reflexivity].
  now rewrite app_assoc.
Qed.

End Equations_of_the_monad.

Ltac method_step :=
  repeat (rewrite ?bind_assoc, ?bind_read, ?bind_lift_normal, ?bind_lift_throw,
            ?bind_ret, ?bind_assign, ?bind_emit; cbv beta iota).

(** ** The Session Gate *)

Section Gate.

Context {collaborators : Collaborators}.

(** *** The branches of [onTurn] and of [handleMagicCode] *)

Lemma onTurn_not_message (this : This) (context : TurnContext) :
  String.eqb (activity_type (activity context)) "message" = false ->
  onTurn context this = {| completion := Normal tt; final := this; trace := [Next] |}.
Proof. intros H. unfold onTurn. now rewrite H. Qed.

Lemma onTurn_authenticated (this : This) (context : TurnContext) :
  userIsAuthenticated (authenticationConfig this) context = true ->
  onTurn context this = {| completion := Normal tt; final := this; trace := [Next] |}.
Proof.
  intros H. unfold onTurn.
  destruct (String.eqb (activity_type (activity context)) "message"); [|reflexivity].
  method_step. now rewrite H.
Qed.

Lemma onTurn_first_contact (this : This) (context : TurnContext) :
  activity_type (activity context) = "message" ->
  userIsAuthenticated (authenticationConfig this) context = false ->
  truthy_opt_bool (sentCode this) = false ->
  onTurn context this =
    {| completion := Normal tt; final := this; trace := login_prompt this context |}.
Proof.
  intros Hm Hu Hs. unfold onTurn, login_prompt, sendActivity.
  rewrite Hm, String.eqb_refl. method_step. rewrite Hu. cbn [negb]. method_step.
  rewrite Hs. cbn [negb].
  destruct (noUserFoundMessage (authenticationConfig this)) as [notice|];
    [destruct (truthy_string notice)|]; method_step; reflexivity.
Qed.

Lemma onTurn_submission (this : This) (context : TurnContext) :
  activity_type (activity context) = "message" ->
  userIsAuthenticated (authenticationConfig this) context = false ->
  truthy_opt_bool (sentCode this) = true ->
  onTurn context this = handleMagicCode context this.
Proof.
  intros Hm Hu Hs. unfold onTurn.
  rewrite Hm, String.eqb_refl. method_step. rewrite Hu. cbn [negb]. method_step.
  now rewrite Hs.
Qed.

Lemma handleMagicCode_match (this : This) (context : TurnContext) (code : string) :
  magicCode this = Some code ->
  toLowerCase (activity_text (activity context)) = toLowerCase code ->
  onLoginSuccess (authenticationConfig this) context (currentAccessToken this) = Normal tt ->
  handleMagicCode context this =
    {| completion := Normal tt; final := cleared this;
       trace := [OnLoginSuccess context (currentAccessToken this);
                 SendActivity context (Text "Authentication Success")] |}.
Proof.
  intros Hc He Hok. unfold handleMagicCode, call_onLoginSuccess, sendActivity.
  method_step. rewrite Hc. method_step. rewrite He, String.eqb_refl.
  method_step. rewrite Hok. method_step. reflexivity.
Qed.

Lemma handleMagicCode_rejected (this : This) (context : TurnContext) (code : string)
    (e : Error) :
  magicCode this = Some code ->
  toLowerCase (activity_text (activity context)) = toLowerCase code ->
  onLoginSuccess (authenticationConfig this) context (currentAccessToken this) = Throw e ->
  handleMagicCode context this =
    {| completion := Throw e; final := this;
       trace := [OnLoginSuccess context (currentAccessToken this)] |}.
Proof.
  intros Hc He Hko. unfold handleMagicCode, call_onLoginSuccess, sendActivity.
  method_step. rewrite Hc. method_step. rewrite He, String.eqb_refl.
  method_step. rewrite Hko. method_step. reflexivity.
Qed.

Lemma handleMagicCode_mismatch (this : This) (context : TurnContext) (code : string) :
  magicCode this = Some code ->
  toLowerCase (activity_text (activity context)) <> toLowerCase code ->
  handleMagicCode context this =
    {| completion := Normal tt; final := cleared this;
       trace := [SendActivity context (Text "Authentication Failure")] |}.
Proof.
  intros Hc Hne. apply String.eqb_neq in Hne.
  unfold handleMagicCode, sendActivity.
  method_step. rewrite Hc. method_step. rewrite Hne. method_step. reflexivity.
Qed.

Lemma handleMagicCode_undefined (this : This) (context : TurnContext) :
  magicCode this = None ->
  handleMagicCode context this =
    {| completion := Throw (TypeError "toLowerCase"); final := this; trace := [] |}.
Proof.
  intros Hc. unfold handleMagicCode. method_step. rewrite Hc. method_step. reflexivity.
Qed.

(** Whatever a turn does, it calls [onLoginSuccess] at most once and only
    while a code is awaited, and the fields stay as they were unless a
    submission was handled to its end, which leaves them [cleared]. *)
Lemma onTurn_cases (this : This) (context : TurnContext) :
  (final (onTurn context this) = this
   /\ count_onLoginSuccess (trace (onTurn context this)) = 0)
  \/ (final (onTurn context this) = this
      /\ truthy_opt_bool (sentCode this) = true
      /\ exists e, onLoginSuccess (authenticationConfig this) context
                     (currentAccessToken this) = Throw e)
  \/ (final (onTurn context this) = cleared this
      /\ truthy_opt_bool (sentCode this) = true
      /\ count_onLoginSuccess (trace (onTurn context this)) <= 1).
Proof.
  destruct (String.eqb (activity_type (activity context)) "message") eqn:Hm.
  2:{ left. rewrite onTurn_not_message by assumption. simpl. auto. }
  apply String.eqb_eq in Hm.
  destruct (userIsAuthenticated (authenticationConfig this) context) eqn:Hu.
  { left. rewrite onTurn_authenticated by assumption. simpl. auto. }
  destruct (truthy_opt_bool (sentCode this)) eqn:Hs.
  2:{ left. rewrite onTurn_first_contact by assumption. simpl. split; [reflexivity|].
      unfold login_prompt, count_onLoginSuccess.
      destruct (noUserFoundMessage (authenticationConfig this)) as [notice|];
        [destruct (truthy_string notice)|]; reflexivity. }
  rewrite onTurn_submission by assumption.
  destruct (magicCode this) as [code|] eqn:Hc.
  2:{ left. rewrite handleMagicCode_undefined by assumption. simpl. auto. }
  destruct (String.eqb (toLowerCase (activity_text (activity context))) (toLowerCase code))
    eqn:He.
  - apply String.eqb_eq in He.
    destruct (onLoginSuccess (authenticationConfig this) context (currentAccessToken this))
      as [[]|e] eqn:Hok.
    + right. right. rewrite (handleMagicCode_match _ _ code) by assumption. simpl. auto.
    + right. left. rewrite (handleMagicCode_rejected _ _ code e) by assumption.
      simpl. eauto.
  - apply String.eqb_neq in He. right. right.
    rewrite (handleMagicCode_mismatch _ _ code) by assumption. simpl. auto.
Qed.

Lemma count_onLoginSuccess_app (t u : list Event) :
  count_onLoginSuccess (t ++ u) = count_onLoginSuccess t + count_onLoginSuccess u.
Proof. unfold count_onLoginSuccess. now rewrite filter_app, length_app. Qed.

(** Once no code is awaited, turns alone change nothing and never call
    [onLoginSuccess]. *)
Lemma run_turns_idle (contexts : list TurnContext) (this : This) :
  truthy_opt_bool (sentCode this) = false ->
  fst (run_turns contexts this) = this
  /\ count_onLoginSuccess (snd (run_turns contexts this)) = 0.
Proof.
  induction contexts as [|context rest IH]; simpl; intros Hs; [auto|].
  destruct (onTurn_cases this context) as [[Hf Hn] | [[_ [Hs' _]] | [_ [Hs' _]]]];
    try congruence.
  rewrite Hf, count_onLoginSuccess_app, Hn. destruct (IH Hs) as [-> ->]. auto.
Qed.



End Gate.


(** ** The Callback Handler *)

Section Callback.

Context {collaborators : Collaborators}.

Lemma callback_request_segments (this : This) (query seg0 seg1 : string)
    (rest : list string) (decoded : string) :
  split "&" query = seg0 :: seg1 :: rest ->
  decodeURIComponent (slice 6 seg1) = Normal decoded ->
  callback_request query this =
    {| completion :=
         Normal (selectOAuthClient (oauthClients this) decoded,
                 {| code := slice 5 seg0; token_redirect_uri := callbackURL this |});
       final := this;
       trace := [GetToken (selectOAuthClient (oauthClients this) decoded)
                   {| code := slice 5 seg0; token_redirect_uri := callbackURL this |}] |}.
Proof.
  intros Hsplit Hdecode. unfold callback_request, index_slice.
  rewrite Hsplit. cbn [nth_error]. method_step. rewrite Hdecode. method_step.
  reflexivity.
Qed.

Lemma callback_request_undecodable (this : This) (query seg0 seg1 : string)
    (rest : list string) (e : Error) :
  split "&" query = seg0 :: seg1 :: rest ->
  decodeURIComponent (slice 6 seg1) = Throw e ->
  callback_request query this =
    {| completion := Throw e; final := this; trace := [] |}.
Proof.
  intros Hsplit Hdecode. unfold callback_request, index_slice.
  rewrite Hsplit. cbn [nth_error]. method_step. rewrite Hdecode. method_step.
  reflexivity.
Qed.

Lemma callback_request_one_segment (this : This) (query seg0 : string) :
  split "&" query = [seg0] ->
  callback_request query this =
    {| completion := Throw (TypeError "slice"); final := this; trace := [] |}.
Proof.
  intros Hsplit. unfold callback_request, index_slice.
  rewrite Hsplit. cbn [nth_error]. method_step. reflexivity.
Qed.

(** The request part changes no field; it either throws before any call or
    calls [getToken] once, with the instance's callback URL. *)
Lemma callback_request_cases (this : This) (query : string) :
  (exists e, callback_request query this =
               {| completion := Throw e; final := this; trace := [] |})
  \/ (exists client tokenConfig,
        callback_request query this =
          {| completion := Normal (client, tokenConfig); final := this;
             trace := [GetToken client tokenConfig] |}
        /\ token_redirect_uri tokenConfig = callbackURL this).
Proof.
  destruct (split_cons "&" query) as (seg0 & segs & Hsplit).
  destruct segs as [|seg1 rest].
  - left. eexists. now apply (callback_request_one_segment _ _ seg0).
  - destruct (decodeURIComponent (slice 6 seg1)) as [decoded|e] eqn:Hdecode.
    + right. do 2 eexists. split.
      * now apply (callback_request_segments _ _ seg0 seg1 rest decoded).
      * reflexivity.
    + left. eexists. now apply (callback_request_undecodable _ _ seg0 seg1 rest e).
Qed.

Lemma callback_then_stores (this : This) (client : OAuthClient) (result : TokenResult)
    (entropy : nat -> byte) :
  callback_then client result entropy this =
    {| completion := Normal tt;
       final := stored (accessToken_create client result)
                  (toString_hex (randomBytes 4 entropy)) this;
       trace := [ResSend 200 ("Please enter the code into the bot: "
                              ++ toString_hex (randomBytes 4 entropy))] |}.
Proof. unfold callback_then. method_step. reflexivity. Qed.

Lemma auth_callback_unfold (this : This) (query : string) (settled : Settled)
    (entropy : nat -> byte) (client : OAuthClient) (tokenConfig : TokenConfig) :
  callback_request query this =
    {| completion := Normal (client, tokenConfig); final := this;
       trace := [GetToken client tokenConfig] |} ->
  auth_callback query settled entropy this =
    match settled with
    | Resolved result =>
        {| completion := Normal tt;
           final := stored (accessToken_create client result)
                      (toString_hex (randomBytes 4 entropy)) this;
           trace := [GetToken client tokenConfig;
                     ResSend 200 ("Please enter the code into the bot: "
                                  ++ toString_hex (randomBytes 4 entropy))] |}
    | Rejected error =>
        {| completion := Normal tt; final := this;
           trace := [GetToken client tokenConfig;
                     ConsoleLog "Access Token Error" error] |}
    end.
Proof.
  intros Hreq. unfold auth_callback, bind. rewrite Hreq. cbn [completion final trace fst].
  destruct settled as [result|error].
  - now rewrite callback_then_stores.
  - reflexivity.
Qed.

Lemma auth_callback_throws (this : This) (query : string) (settled : Settled)
    (entropy : nat -> byte) (e : Error) :
  callback_request query this = {| completion := Throw e; final := this; trace := [] |} ->
  auth_callback query settled entropy this =
    {| completion := Throw e; final := this; trace := [] |}.
Proof. intros Hreq. unfold auth_callback, bind. now rewrite Hreq. Qed.

(** *** The invariant *)

Lemma invariant_cleared (config : AuthenticationConfig) (this : This) :
  invariant config this -> invariant config (cleared this).
Proof.
  intros (Hc & Hk & Hu & Ho & _ & _). repeat split; try assumption; discriminate.
Qed.

Lemma invariant_stored (config : AuthenticationConfig) (this : This)
    (accessToken : AccessToken) (entropy : nat -> byte) :
  invariant config this ->
  invariant config (stored accessToken (toString_hex (randomBytes 4 entropy)) this).
Proof.
  intros (Hc & Hk & Hu & Ho & _ & _). repeat split; try assumption; try discriminate.
  intros _. eexists. split; [reflexivity|].
  rewrite length_toString_hex, length_randomBytes, toString_hex_digits. auto.
Qed.

Lemma invariant_new (config : AuthenticationConfig) (this : This) :
  constructor config = Normal this -> invariant config this.
Proof.
  unfold constructor, bindC.
  destruct (createOAuthClients knownEndpoints_table config) as [clients|e] eqn:Hclients;
    [|discriminate].
  intros H. injection H as <-. repeat split; try reflexivity; try assumption; discriminate.
Qed.

Lemma reachable_invariant (config : AuthenticationConfig) (this : This) :
  reachable config this -> invariant config this.
Proof.
  induction 1 as [this Hnew | this context _ IH | this query settled entropy _ IH].
  - now apply invariant_new.
  - destruct (onTurn_cases this context) as [[-> _] | [[-> _] | [-> _]]];
      [assumption | assumption | now apply invariant_cleared].
  - destruct (callback_request_cases this query) as [[e Hreq] | (client & tc & Hreq & _)].
    + now rewrite (auth_callback_throws _ _ _ _ e Hreq).
    + rewrite (auth_callback_unfold _ _ _ _ client tc Hreq).
      destruct settled; [now apply invariant_stored | assumption].
Qed.

End Callback.

(** ** The claims about the gate without a pending authentication *)

Lemma sample_fresh_constructed : constructor Sample.config = Normal Sample.fresh.
Proof. reflexivity. Qed.

Section First_contact.

Context {collaborators : Collaborators}.

Lemma login_prompt_has_no_next (this : This) (context : TurnContext) :
  existsb is_next (login_prompt this context) = false.
Proof.
  unfold login_prompt.
  destruct (noUserFoundMessage (authenticationConfig this)) as [notice|];
    [destruct (truthy_string notice)|]; reflexivity.
Qed.


(** C3, amended. In every state an instance goes through, while no pending
    authentication is stored (no magic code was ever stored, or it was
    consumed), a turn returns normally, calls [onLoginSuccess] not at all
    and leaves the fields as they were; no code being awaited then, an
    unauthenticated user message is not taken as a submission: the gate
    answers it with the login prompt, not with a failure notice. *)
Theorem C3_no_pending_no_submission :
  forall (config : AuthenticationConfig) (this : This) (context : TurnContext),
    reachable config this ->
    no_pending this ->
    truthy_opt_bool (sentCode this) = false
    /\ completion (onTurn context this) = Normal tt
    /\ final (onTurn context this) = this
    /\ count_onLoginSuccess (trace (onTurn context this)) = 0
    /\ (activity_type (activity context) = "message" ->
        userIsAuthenticated (authenticationConfig this) context = false ->
        trace (onTurn context this) = login_prompt this context).
Proof.
  intros config this context Hreach Hnone.
  destruct (reachable_invariant config this Hreach) as (_ & _ & _ & _ & Hsent & _).
  assert (Hs : truthy_opt_bool (sentCode this) = false).
  { destruct (truthy_opt_bool (sentCode this)); [|reflexivity].
    destruct (Hsent eq_refl) as (magic & Hmagic & Hlen & _).
    unfold no_pending in Hnone. rewrite Hmagic in Hnone. simpl in Hnone.
    rewrite truthy_of_length in Hnone by lia. discriminate. }
  split; [exact Hs|].
  destruct (String.eqb (activity_type (activity context)) "message") eqn:Hm.
  2:{ rewrite onTurn_not_message by assumption. cbn [completion final trace].
      repeat split. intros Hm'. rewrite Hm' in Hm. discriminate. }
  apply String.eqb_eq in Hm.
  destruct (userIsAuthenticated (authenticationConfig this) context) eqn:Hu.
  { rewrite onTurn_authenticated by assumption. cbn [completion final trace].
    repeat split. discriminate. }
  rewrite onTurn_first_contact by assumption. cbn [completion final trace].
  repeat split.
  unfold login_prompt, count_onLoginSuccess.
  destruct (noUserFoundMessage (authenticationConfig this)) as [notice|];
    [destruct (truthy_string notice)|]; reflexivity.
Qed.

End First_contact.



(** C3 as stated fails on the instance the constructor returns, where no
    magic code was ever stored: a message that would be a code is answered
    with the notice and the card, no failure notice is sent; and
    [handleMagicCode] itself, were it entered there, throws.  After a code
    was consumed, [handleMagicCode] on an empty text would take the match
    branch. *)
Lemma C3_no_pending_counterexample :
  constructor Sample.config = Normal Sample.fresh
  /\ no_pending Sample.fresh
  /\ trace (onTurn (Sample.message "a1b2c3d4") Sample.fresh) =
       [SendActivity (Sample.message "a1b2c3d4") (Text "Please log in");
        SendActivity (Sample.message "a1b2c3d4")
          (Act (createAuthenticationCard Sample.fresh (Sample.message "a1b2c3d4")))]
  /\ ~ In (SendActivity (Sample.message "a1b2c3d4") (Text "Authentication Failure"))
         (trace (onTurn (Sample.message "a1b2c3d4") Sample.fresh))
  /\ completion (handleMagicCode (Sample.message "a1b2c3d4") Sample.fresh) =
       Throw (TypeError "toLowerCase")
  /\ no_pending (cleared Sample.pending)
  /\ trace (handleMagicCode (Sample.message "") (cleared Sample.pending)) =
       [OnLoginSuccess (Sample.message "") None;
        SendActivity (Sample.message "") (Text "Authentication Success")].
Proof.
  repeat split.
  intros [H | [H | []]]; discriminate.
Qed.

Lemma C3_no_pending_witness :
  completion (onTurn (Sample.message "a1b2c3d4") Sample.fresh) = Normal tt
  /\ count_onLoginSuccess (trace (onTurn (Sample.message "a1b2c3d4") Sample.fresh)) = 0
  /\ trace (onTurn (Sample.message "a1b2c3d4") Sample.fresh) =
       login_prompt Sample.fresh (Sample.message "a1b2c3d4").
Proof.
  assert (H := @C3_no_pending_no_submission Sample.collaborators Sample.config
                 Sample.fresh (Sample.message "a1b2c3d4")
                 (reachable_new Sample.config Sample.fresh eq_refl) eq_refl).
  split; [exact (proj1 (proj2 H))|].
  split; [exact (proj1 (proj2 (proj2 (proj2 H))))|].
  exact (proj2 (proj2 (proj2 (proj2 H))) eq_refl eq_refl).
Defined.

(** ** The claims about the callback *)

Section Callback_claims.

Context {collaborators : Collaborators}.

(** A [state] that is none of the three identifiers, the empty one
    included, selects the directory client. *)
Lemma selectOAuthClient_default (clients : OAuthClients) (state : string) :
  state <> StrategyType_value Facebook ->
  state <> StrategyType_value Github ->
  selectOAuthClient clients state = activeDirectoryOAuthClient clients.
Proof.
  intros Hf Hg. unfold selectOAuthClient.
  apply String.eqb_neq in Hf, Hg. rewrite Hf, Hg.
  now destruct (String.eqb state (StrategyType_value ActiveDirectory)).
Qed.

(** C4. When the promise of [getToken] rejects, the handler leaves every
    field as it was, [magicCode], [currentAccessToken] and [sentCode]
    among them; and when the request got as far as the exchange, the
    handler returns normally, having logged the error after the call. *)
Theorem C4_failed_exchange_keeps_state :
  forall (this : This) (query : string) (error : Error) (entropy : nat -> byte),
    let o := auth_callback query (Rejected error) entropy this in
    final o = this
    /\ magicCode (final o) = magicCode this
    /\ currentAccessToken (final o) = currentAccessToken this
    /\ sentCode (final o) = sentCode this
    /\ callback_catch error this =
         {| completion := Normal tt; final := this;
            trace := [ConsoleLog "Access Token Error" error] |}
    /\ (forall request,
          completion (callback_request query this) = Normal request ->
          completion o = Normal tt
          /\ trace o = [GetToken (fst request) (snd request);
                        ConsoleLog "Access Token Error" error]).
Proof.
  intros this query error entropy o. subst o.
  destruct (callback_request_cases this query) as [[e Hreq] | (client & tc & Hreq & _)].
  - rewrite (auth_callback_throws _ _ _ _ e Hreq). cbn [final completion trace].
    do 5 (split; [reflexivity|]). intros request. rewrite Hreq. discriminate.
  - rewrite (auth_callback_unfold _ _ _ _ client tc Hreq). cbn [final completion trace].
    do 5 (split; [reflexivity|]). intros request. rewrite Hreq.
    cbn [completion]. intros Hr. injection Hr as <-. split; reflexivity.
Qed.

(** C6, at the query string "code=abc", which has no second segment: the
    handler throws when it reads [slice] from [undefined] (line 107), before
    any client is selected and before [getToken] is called. *)
Theorem C6_absent_state_throws :
  forall (this : This) (settled : Settled) (entropy : nat -> byte),
    callback_request "code=abc" this =
      {| completion := Throw (TypeError "slice"); final := this; trace := [] |}
    /\ auth_callback "code=abc" settled entropy this =
      {| completion := Throw (TypeError "slice"); final := this; trace := [] |}.
Proof.
  intros this settled entropy.
  assert (Hreq := callback_request_one_segment this "code=abc" "code=abc" eq_refl).
  split; [exact Hreq | now apply auth_callback_throws].
Qed.

(** C7. The authorization code is the first segment of the query string
    without its first five characters, as it stands, and the state is the
    second segment without its first six characters, decoded: so for the
    query [code=<code>&state=<state>], whatever follows a further ampersand,
    [getToken] receives [code] itself and the client is the one selected by
    the decoded [state]. *)
Theorem C7_positional_parsing :
  forall (this : This),
    (forall (query seg0 seg1 : string) (rest : list string) (decoded : string),
        split "&" query = seg0 :: seg1 :: rest ->
        decodeURIComponent (slice 6 seg1) = Normal decoded ->
        callback_request query this =
          {| completion :=
               Normal (selectOAuthClient (oauthClients this) decoded,
                       {| code := slice 5 seg0; token_redirect_uri := callbackURL this |});
             final := this;
             trace := [GetToken (selectOAuthClient (oauthClients this) decoded)
                         {| code := slice 5 seg0;
                            token_redirect_uri := callbackURL this |}] |})
    /\ (forall (code state tail decoded : string),
          has_char "&" code = false ->
          has_char "&" state = false ->
          tail = "" \/ (exists more, tail = String "&" more) ->
          decodeURIComponent state = Normal decoded ->
          callback_request ("code=" ++ code ++ "&state=" ++ state ++ tail) this =
            {| completion :=
                 Normal (selectOAuthClient (oauthClients this) decoded,
                         {| code := code; token_redirect_uri := callbackURL this |});
               final := this;
               trace := [GetToken (selectOAuthClient (oauthClients this) decoded)
                           {| code := code; token_redirect_uri := callbackURL this |}] |}).
Proof.
  intros this. split.
  - intros query seg0 seg1 rest decoded. apply callback_request_segments.
  - intros code state tail decoded Hcode Hstate Htail Hdecode.
    assert (Hsplit : exists rest,
               split "&" ("code=" ++ code ++ "&state=" ++ state ++ tail)
               = ("code=" ++ code)%string :: ("state=" ++ state)%string :: rest).
    { change ("code=" ++ code ++ "&state=" ++ state ++ tail)%string
        with (("code=" ++ code) ++ String "&" (("state=" ++ state) ++ tail))%string.
      rewrite split_at_first by exact Hcode.
      destruct Htail as [-> | [more ->]].
      - exists []. rewrite append_empty. now rewrite split_without by exact Hstate.
      - exists (split "&" more). now rewrite split_at_first by exact Hstate. }
    destruct Hsplit as [rest Hsplit].
    rewrite (callback_request_segments _ _ _ _ _ decoded Hsplit).
    + reflexivity.
    + exact Hdecode.
Qed.

(** C8. When the request reaches the exchange and the promise of
    [getToken] resolves, the handler draws four bytes, renders them as a
    magic code of eight hexadecimal digits, stores the access token, the
    code and [sentCode] true over whatever the three fields held, and
    answers 200 with "Please enter the code into the bot: " followed by the
    code. *)
Theorem C8_successful_exchange_stores_code :
  forall (this : This) (query : string) (result : TokenResult) (entropy : nat -> byte)
         (client : OAuthClient) (tokenConfig : TokenConfig),
    completion (callback_request query this) = Normal (client, tokenConfig) ->
    let magic := toString_hex (randomBytes 4 entropy) in
    let o := auth_callback query (Resolved result) entropy this in
    List.length (randomBytes 4 entropy) = 4
    /\ String.length magic = 8
    /\ all_chars is_hex_digit magic = true
    /\ o = {| completion := Normal tt;
              final := stored (accessToken_create client result) magic this;
              trace := [GetToken client tokenConfig;
                        ResSend 200 ("Please enter the code into the bot: " ++ magic)] |}
    /\ magicCode (final o) = Some magic
    /\ currentAccessToken (final o) = Some (accessToken_create client result)
    /\ sentCode (final o) = Some true.
Proof.
  intros this query result entropy client tokenConfig Hreq magic o. subst magic o.
  destruct (callback_request_cases this query) as [[e Hthrow] | (c & tc & Hnormal & _)].
  - rewrite Hthrow in Hreq. discriminate.
  - rewrite Hnormal in Hreq. cbn [completion] in Hreq. injection Hreq as -> ->.
    rewrite (auth_callback_unfold _ _ _ _ client tokenConfig Hnormal).
    cbn [final].
    rewrite length_randomBytes, length_toString_hex, length_randomBytes, toString_hex_digits.
    repeat split.
Qed.

End Callback_claims.

Lemma C4_failed_exchange_witness :
  final (auth_callback "code=abc&state=Github" (Rejected (Other "invalid_grant"))
           Sample.entropy Sample.pending) = Sample.pending
  /\ completion (auth_callback "code=abc&state=Github" (Rejected (Other "invalid_grant"))
                   Sample.entropy Sample.pending) = Normal tt.
Proof.
  assert (H := @C4_failed_exchange_keeps_state Sample.collaborators Sample.pending
                 "code=abc&state=Github" (Other "invalid_grant") Sample.entropy).
  split.
  - exact (proj1 H).
  - exact (proj1 (proj2 (proj2 (proj2 (proj2 (proj2 H)))) _ eq_refl)).
Defined.

Lemma C7_positional_parsing_witness :
  callback_request "code=4%2Fabc&state=Github&session_state=xyz" Sample.fresh =
    {| completion :=
         Normal (githubOAuthClient (oauthClients Sample.fresh),
                 {| code := "4%2Fabc";
                    token_redirect_uri := "http://localhost:3978/auth/callback" |});
       final := Sample.fresh;
       trace := [GetToken (githubOAuthClient (oauthClients Sample.fresh))
                   {| code := "4%2Fabc";
                      token_redirect_uri := "http://localhost:3978/auth/callback" |}] |}.
Proof.
  exact (proj2 (@C7_positional_parsing Sample.collaborators Sample.fresh)
           "4%2Fabc" "Github" "&session_state=xyz" "Github"
           eq_refl eq_refl (or_intror (ex_intro _ "session_state=xyz" eq_refl)) eq_refl).
Defined.

Lemma C8_successful_exchange_witness :
  auth_callback "code=abc&state=Github" (@Resolved Sample.collaborators "raw-token")
    Sample.entropy Sample.fresh =
    {| completion := Normal tt;
       final := Sample.pending;
       trace := [GetToken (githubOAuthClient (oauthClients Sample.fresh))
                   {| code := "abc";
                      token_redirect_uri := "http://localhost:3978/auth/callback" |};
                 ResSend 200 "Please enter the code into the bot: a1b2c3d4"] |}.
Proof.
  exact (proj1 (proj2 (proj2 (proj2
           (@C8_successful_exchange_stores_code Sample.collaborators Sample.fresh
              "code=abc&state=Github" "raw-token" Sample.entropy
              (githubOAuthClient (oauthClients Sample.fresh))
              {| code := "abc";
                 token_redirect_uri := "http://localhost:3978/auth/callback" |}
              eq_refl))))).
Defined.

(** ** The Login Card and the callback URL *)

Section Login_card.

Context {collaborators : Collaborators}.

Lemma string_or_label (p : StrategyType) (pc : ProviderConfig) :
  string_or (buttonText pc) (default_label p) = spec_label p pc.
Proof. unfold string_or, spec_label. now destruct (buttonText pc) as [[|c rest]|]. Qed.

Lemma array_or_scope (p : StrategyType) (pc : ProviderConfig) :
  array_or (scopes pc) (default_scope p) = spec_scope p pc.
Proof. reflexivity. Qed.

Lemma createAuthenticationCard_spec (this : This) (context : TurnContext) :
  createAuthenticationCard this context =
    {| attachments :=
         [ {| card_title := "";
              card_buttons :=
                map (spec_action this)
                  (configured_providers (authenticationConfig this)) |} ] |}.
Proof.
  unfold createAuthenticationCard, configured_providers, all_providers,
    MessageFactory_attachment, thumbnailCard, spec_action, spec_authorize_params.
  cbn [flat_map provider_config].
  destruct (facebook (authenticationConfig this)) as [fb|];
    destruct (activeDirectory (authenticationConfig this)) as [ad|];
    destruct (github (authenticationConfig this)) as [gh|];
    cbn [app map fst snd provider_client];
    rewrite <- ?(string_or_label Facebook), <- ?(string_or_label ActiveDirectory),
      <- ?(string_or_label Github);
    reflexivity.
Qed.

Lemma configured_once (config : AuthenticationConfig) (p : StrategyType) :
  List.length
    (filter (fun entry => StrategyType_eqb (fst entry) p) (configured_providers config))
  = if truthy_opt (provider_config config p) then 1 else 0.
Proof.
  unfold configured_providers, all_providers. cbn [flat_map provider_config].
  destruct p; cbn [provider_config];
    destruct (facebook config), (activeDirectory config), (github config);
    reflexivity.
Qed.

(** C9. The Login Card has one card, untitled, whose buttons are, in the
    order Facebook, Active Directory, GitHub, one [openUrl] action for each
    provider the configuration has and none for the others: each provider
    occurs once among them when configured and not at all otherwise.  The
    action of a provider opens the authorization URL its client builds for
    the state equal to the provider's identifier and the scope equal to the
    configured scopes, or to public_profile, User.Read or user when none
    are configured; its title is the configured button text, or "Log in
    with Facebook", "Log in with Microsoft" or "Log in with GitHub" when
    there is none or it is empty.  Without any provider the card has no
    button. *)
Theorem C9_login_card_actions :
  forall (this : This) (context : TurnContext),
    let config := authenticationConfig this in
    let buttons := card_actions (createAuthenticationCard this context) in
    createAuthenticationCard this context =
      {| attachments :=
           [ {| card_title := "";
                card_buttons := map (spec_action this) (configured_providers config) |} ] |}
    /\ buttons = map (spec_action this) (configured_providers config)
    /\ (forall p : StrategyType,
          List.length
            (filter (fun entry => StrategyType_eqb (fst entry) p)
               (configured_providers config))
          = if truthy_opt (provider_config config p) then 1 else 0)
    /\ List.length buttons = List.length (configured_providers config)
    /\ (forall p : StrategyType, forall pc : ProviderConfig,
          spec_action this (p, pc) =
            {| action_type := "openUrl";
               action_value :=
                 authorizeURL (provider_client (oauthClients this) p)
                   {| redirect_uri := callbackURL this;
                      scope := match scopes pc with
                               | Some configured => configured
                               | None => default_scope p
                               end;
                      state := StrategyType_value p |};
               action_title := spec_label p pc |})
    /\ (facebook config = None -> activeDirectory config = None -> github config = None ->
        buttons = []).
Proof.
  intros this context config buttons. subst config buttons.
  unfold card_actions. rewrite createAuthenticationCard_spec.
  cbn [attachments flat_map card_buttons]. rewrite app_nil_r.
  split; [reflexivity|]. split; [reflexivity|].
  split; [intros p; apply configured_once|].
  split; [apply length_map|].
  split; [reflexivity|].
  intros Hf Ha Hg. unfold configured_providers, all_providers.
  cbn [flat_map provider_config]. now rewrite Hf, Ha, Hg.
Qed.

(** C10. In every state an instance goes through, whatever configuration
    it was built from, the callback URL is the constant
    http://localhost:3978/auth/callback: the authorization URL of each
    action of the Login Card is built with it as [redirect_uri], and each
    call of [getToken] made by the callback handler carries it as
    [redirect_uri]. *)
Theorem C10_callback_url_constant :
  forall (config : AuthenticationConfig) (this : This),
    reachable config this ->
    callbackURL this = "http://localhost:3978/auth/callback"
    /\ (forall context : TurnContext,
          map action_value (card_actions (createAuthenticationCard this context)) =
            map (fun entry =>
                   authorizeURL (provider_client (oauthClients this) (fst entry))
                     {| redirect_uri := "http://localhost:3978/auth/callback";
                        scope := spec_scope (fst entry) (snd entry);
                        state := StrategyType_value (fst entry) |})
                (configured_providers config))
    /\ (forall (query : string) (settled : Settled) (entropy : nat -> byte)
               (client : OAuthClient) (tokenConfig : TokenConfig),
          In (GetToken client tokenConfig)
             (trace (auth_callback query settled entropy this)) ->
          token_redirect_uri tokenConfig = "http://localhost:3978/auth/callback").
Proof.
  intros config this Hreach.
  destruct (reachable_invariant config this Hreach) as (Hconfig & _ & Hurl & _).
  split; [exact Hurl|]. split.
  - intros context. unfold card_actions. rewrite createAuthenticationCard_spec.
    cbn [attachments flat_map card_buttons]. rewrite app_nil_r, map_map, Hconfig.
    apply map_ext. intros entry. unfold spec_action, spec_authorize_params.
    cbn [action_value]. now rewrite Hurl.
  - intros query settled entropy client tokenConfig Hin.
    destruct (callback_request_cases this query) as [[e Hreq] | (c & tc & Hreq & Htc)].
    + rewrite (auth_callback_throws _ _ _ _ e Hreq) in Hin. destruct Hin.
    + rewrite (auth_callback_unfold _ _ _ _ c tc Hreq) in Hin.
      destruct settled; cbn [trace] in Hin;
        destruct Hin as [Hin | [Hin | []]]; try discriminate;
        injection Hin as _ <-; now rewrite Htc.
Qed.

End Login_card.

Lemma C10_callback_url_witness :
  callbackURL Sample.pending = "http://localhost:3978/auth/callback"
  /\ map action_value
       (card_actions (createAuthenticationCard Sample.pending (Sample.message "hello"))) =
     ["https://www.facebook.com/v3.0/dialog/oauth?client_id=fb-id&redirect_uri=http://localhost:3978/auth/callback&scope=public_profile&state=Facebook";
      "https://github.com/login/oauth/authorize?client_id=gh-id&redirect_uri=http://localhost:3978/auth/callback&scope=user&state=Github"].
Proof.
  assert (H := @C10_callback_url_constant Sample.collaborators Sample.config Sample.pending
                 (reachable_callback Sample.config Sample.fresh "code=abc&state=Github"
                    (@Resolved Sample.collaborators "raw-token") Sample.entropy
                    (reachable_new Sample.config Sample.fresh eq_refl))).
  split.
  - exact (proj1 H).
  - exact (proj1 (proj2 H) (Sample.message "hello")).
Defined.

(** ** The OAuth client set *)

Section Client_set.

Context {collaborators : Collaborators}.

Lemma createOAuthClients_normal (known : KnownEndpointsConfig)
    (config : AuthenticationConfig) (clients : OAuthClients) :
  createOAuthClients known config = Normal clients ->
  forall p : StrategyType,
    createOAuth (client_options known config p) = Normal (provider_client clients p).
Proof.
  unfold createOAuthClients, client_options, provider_options, placeholder_options, bindC.
  destruct (createOAuth _) as [c0|e0] eqn:H0 in |- *; [|discriminate].
  destruct (facebook config) as [fb|] eqn:Hfb;
    [destruct (createOAuth _) as [cf|ef] eqn:Hf in |- *; [|discriminate]|];
    (destruct (activeDirectory config) as [ad|] eqn:Had;
     [destruct (createOAuth _) as [ca|ea] eqn:Ha in |- *; [|discriminate]|]);
    (destruct (github config) as [gh|] eqn:Hgh;
     [destruct (createOAuth _) as [cg|eg] eqn:Hg in |- *; [|discriminate]|]);
    intros H; injection H as <-; intros [| |];
    cbn [provider_config provider_client provider_endpoints fst snd
         facebookOAuthClient activeDirectoryOAuthClient githubOAuthClient];
    rewrite ?Hfb, ?Had, ?Hgh; assumption.
Qed.

Lemma is_throw_createOAuthClients (known : KnownEndpointsConfig)
    (config : AuthenticationConfig) :
  is_throw (createOAuthClients known config) =
    existsb (fun options => is_throw (createOAuth options)) (requested_options known config).
Proof.
  unfold createOAuthClients, requested_options, configured_providers, all_providers,
    provider_options, placeholder_options, bindC.
  cbn [flat_map provider_config].
  destruct (facebook config) as [fb|]; destruct (activeDirectory config) as [ad|];
    destruct (github config) as [gh|];
    cbn [app map existsb fst snd provider_endpoints];
    repeat match goal with
           | |- context [createOAuth ?o] =>
               destruct (createOAuth o) as [?c|?e]; cbn [is_throw orb]
           end;
    reflexivity.
Qed.

Lemma createOAuthClients_throw (known : KnownEndpointsConfig)
    (config : AuthenticationConfig) (e : Error) :
  createOAuthClients known config = Throw e ->
  exists options,
    In options (requested_options known config) /\ createOAuth options = Throw e.
Proof.
  unfold createOAuthClients, requested_options, configured_providers, all_providers,
    provider_options, placeholder_options, bindC.
  cbn [flat_map provider_config].
  destruct (facebook config) as [fb|]; destruct (activeDirectory config) as [ad|];
    destruct (github config) as [gh|];
    cbn [app map fst snd provider_endpoints];
    repeat match goal with
           | |- context [createOAuth ?o] =>
               let H := fresh "Hcall" in
               destruct (createOAuth o) as [?c|?e] eqn:H
           end;
    intros Hthrow; try discriminate; injection Hthrow as ->;
    match goal with
    | Hcall : createOAuth ?o = Throw e |- _ =>
        exists o; split; [cbn [In]; tauto | exact Hcall]
    end.
Qed.

(** C5, amended. Client construction hands the library's [create] the
    placeholder options three times and then, for each provider the
    configuration has, options that carry that provider's [clientId] and
    [clientSecret] as they are with the provider's endpoints; it checks
    neither credential itself.  It fails exactly when one of these calls of
    [create] throws, and then with what that call threw; otherwise the
    client of a configured provider is the one [create] returned for the
    provider's options, and the client of any other provider is a
    placeholder. *)
Theorem C5_clients_built_without_validation :
  forall (known : KnownEndpointsConfig) (config : AuthenticationConfig),
    is_throw (createOAuthClients known config) =
      existsb (fun options => is_throw (createOAuth options)) (requested_options known config)
    /\ (forall e : Error,
          createOAuthClients known config = Throw e ->
          exists options,
            In options (requested_options known config) /\ createOAuth options = Throw e)
    /\ (forall clients : OAuthClients,
          createOAuthClients known config = Normal clients ->
          forall p : StrategyType,
            createOAuth (client_options known config p) = Normal (provider_client clients p))
    /\ (forall (p : StrategyType) (pc : ProviderConfig),
          provider_config config p = Some pc ->
          client_options known config p =
            {| client_id := clientId pc; client_secret := clientSecret pc;
               auth_authorizeHost :=
                 Some (authorizationBaseUrl (provider_endpoints known p));
               auth_authorizePath :=
                 Some (authorizationEndpoint (provider_endpoints known p));
               auth_tokenHost := tokenBaseUrl (provider_endpoints known p);
               auth_tokenPath := Some (tokenEndpoint (provider_endpoints known p)) |})
    /\ (forall p : StrategyType,
          provider_config config p = None ->
          client_options known config p =
            {| client_id := ""; client_secret := "";
               auth_authorizeHost := None; auth_authorizePath := None;
               auth_tokenHost := tokenBaseUrl (known_activeDirectory known);
               auth_tokenPath := None |}).
Proof.
  intros known config.
  split; [apply is_throw_createOAuthClients|].
  split; [intros e; apply createOAuthClients_throw|].
  split; [intros clients; apply createOAuthClients_normal|].
  split; intros p; [intros pc|]; intros Hp; unfold client_options; now rewrite Hp.
Qed.

End Client_set.

(** C5 as stated fails where [create] accepts empty credentials, as it
    must for the placeholder options: with Facebook configured and both
    its credentials empty, or its secret alone empty, construction returns
    an instance, whose Facebook client holds the empty credential. *)
Lemma C5_missing_credentials_counterexample :
  (exists pc, facebook Sample.config_without_credentials = Some pc
              /\ clientId pc = "" /\ clientSecret pc = "")
  /\ (exists this : This,
        constructor Sample.config_without_credentials = Normal this
        /\ client_id (facebookOAuthClient (oauthClients this)) = ""
        /\ client_secret (facebookOAuthClient (oauthClients this)) = "")
  /\ is_throw (createOAuthClients knownEndpoints_table Sample.config_without_credentials)
     = false
  /\ (exists pc, facebook Sample.config_without_secret = Some pc
                 /\ clientId pc = "fb-id" /\ clientSecret pc = "")
  /\ (exists this : This,
        constructor Sample.config_without_secret = Normal this
        /\ client_secret (facebookOAuthClient (oauthClients this)) = "")
  /\ is_throw (createOAuthClients knownEndpoints_table Sample.config_without_secret) = false.
Proof.
  split; [eexists; repeat split|].
  split; [eexists; repeat split|].
  split; [reflexivity|].
  split; [eexists; repeat split|].
  split; [eexists; repeat split|].
  reflexivity.
Qed.

Lemma C5_clients_witness :
  createOAuth (client_options knownEndpoints_table Sample.config Github) =
    Normal (provider_client (oauthClients Sample.fresh) Github)
  /\ client_options knownEndpoints_table Sample.config Github =
       {| client_id := "gh-id"; client_secret := "gh-secret";
          auth_authorizeHost := Some "https://github.com";
          auth_authorizePath := Some "/login/oauth/authorize";
          auth_tokenHost := "https://github.com";
          auth_tokenPath := Some "/login/oauth/access_token" |}.
Proof.
  assert (H := @C5_clients_built_without_validation Sample.collaborators
                 knownEndpoints_table Sample.config).
  split.
  - exact (proj1 (proj2 (proj2 H)) (oauthClients Sample.fresh) eq_refl Github).
  - exact (proj1 (proj2 (proj2 (proj2 H))) Github (Sample.provider "gh-id" "gh-secret")
             eq_refl).
Defined.

(** ** The sample run from first contact to replay *)

Lemma C9_login_card_witness :
  card_actions (createAuthenticationCard Sample.fresh (Sample.message "hello")) =
    [ {| action_type := "openUrl";
         action_value :=
           "https://www.facebook.com/v3.0/dialog/oauth?client_id=fb-id&redirect_uri=http://localhost:3978/auth/callback&scope=public_profile&state=Facebook";
         action_title := "Log in with Facebook" |};
      {| action_type := "openUrl";
         action_value :=
           "https://github.com/login/oauth/authorize?client_id=gh-id&redirect_uri=http://localhost:3978/auth/callback&scope=user&state=Github";
         action_title := "Log in with GitHub" |} ].
Proof.
  exact (proj1 (proj2 (@C9_login_card_actions Sample.collaborators Sample.fresh
                         (Sample.message "hello")))).
Defined.

(** An empty and an unknown [state] both select the directory client. *)
Example sample_default_client :
  completion (callback_request "code=abc&state=" Sample.fresh) =
    Normal (activeDirectoryOAuthClient (oauthClients Sample.fresh),
            {| code := "abc"; token_redirect_uri := "http://localhost:3978/auth/callback" |})
  /\ completion (callback_request "code=abc&state=Twitter" Sample.fresh) =
    Normal (activeDirectoryOAuthClient (oauthClients Sample.fresh),
            {| code := "abc"; token_redirect_uri := "http://localhost:3978/auth/callback" |}).
Proof. split; reflexivity. Qed.

(** A first message, the callback for GitHub, the code typed in capitals,
    then typed again: a card of two buttons with [sentCode] still unset, the
    code a1b2c3d4 stored, one call of [onLoginSuccess], and the login prompt
    again for the replay. *)
Example sample_scenario :
  let hello := Sample.message "hello" in
  let typed := Sample.message "A1B2C3D4" in
  let again := Sample.message "a1b2c3d4" in
  let o1 := onTurn hello Sample.fresh in
  let o2 := auth_callback "code=abc&state=Github" (@Resolved Sample.collaborators "raw-token")
              Sample.entropy (final o1) in
  let o3 := onTurn typed (final o2) in
  let o4 := onTurn again (final o3) in
  List.length (card_actions (createAuthenticationCard Sample.fresh hello)) = 2
  /\ sentCode (final o1) = None
  /\ final o2 = Sample.pending
  /\ trace o3 = [OnLoginSuccess typed (Some Sample.token);
                 SendActivity typed (Text "Authentication Success")]
  /\ final o3 = cleared Sample.pending
  /\ trace o4 = login_prompt (cleared Sample.pending) again
  /\ count_onLoginSuccess (trace o1 ++ trace o2 ++ trace o3 ++ trace o4) = 1.
Proof. repeat split. Qed.

(** * Further properties of the code *)

(** ** More on the built-ins *)

Lemma length_toLowerCase (s : string) :
  String.length (toLowerCase s) = String.length s.
Proof. induction s as [|c rest IH]; simpl; [reflexivity | now rewrite IH]. Qed.

Lemma lower_hex_digit (c : ascii) :
  is_hex_digit c = true -> lower_ascii c = c.
Proof.
  destruct c as [[] [] [] [] [] [] [] []]; intros H; try reflexivity; discriminate H.
Qed.

Lemma toLowerCase_hex (s : string) :
  all_chars is_hex_digit s = true -> toLowerCase s = s.
Proof.
  induction s as [|c rest IH]; simpl; intros H; [reflexivity|].
  apply andb_true_iff in H. destruct H as [Hc Hrest].
  now rewrite lower_hex_digit, IH.
Qed.

Lemma split_with (sep : ascii) (s : string) :
  has_char sep s = true ->
  exists seg0 seg1 rest, split sep s = seg0 :: seg1 :: rest.
Proof.
  unfold has_char. induction s as [|c rest IH]; simpl; intros H; [discriminate|].
  destruct (Ascii.eqb c sep) eqn:Hc.
  - destruct (split_cons sep rest) as (seg & segs & ->). now exists EmptyString, seg, segs.
  - simpl in H. destruct (IH H) as (seg0 & seg1 & segs & ->).
    now exists (String c seg0), seg1, segs.
Qed.

Lemma split_shape (sep : ascii) (s : string) :
  (exists seg0, split sep s = [seg0])
  \/ (exists seg0 seg1 rest, split sep s = seg0 :: seg1 :: rest).
Proof.
  destruct (split_cons sep s) as (seg0 & [|seg1 rest] & ->); [left | right]; eauto.
Qed.

Lemma truthy_string_empty (s : string) : truthy_string s = false -> s = "".
Proof. destruct s; [reflexivity | discriminate]. Qed.

(** ** More on the Session Gate *)

Section Gate_runs.

Context {collaborators : Collaborators}.

Lemma onTurn_blocked (this : This) (context : TurnContext) :
  activity_type (activity context) = "message" ->
  userIsAuthenticated (authenticationConfig this) context = false ->
  existsb is_next (trace (onTurn context this)) = false.
Proof.
  intros Hm Hu.
  destruct (truthy_opt_bool (sentCode this)) eqn:Hs.
  2:{ rewrite onTurn_first_contact by assumption. apply login_prompt_has_no_next. }
  rewrite onTurn_submission by assumption.
  destruct (magicCode this) as [code|] eqn:Hc.
  2:{ now rewrite handleMagicCode_undefined. }
  destruct (String.eqb (toLowerCase (activity_text (activity context))) (toLowerCase code))
    eqn:He.
  - apply String.eqb_eq in He.
    destruct (onLoginSuccess (authenticationConfig this) context (currentAccessToken this))
      as [[]|e] eqn:Hok.
    + now rewrite (handleMagicCode_match _ _ code).
    + now rewrite (handleMagicCode_rejected _ _ code e).
  - apply String.eqb_neq in He. now rewrite (handleMagicCode_mismatch _ _ code).
Qed.

(** X1. [onTurn] calls [next] exactly when the activity is not a message
    or the caller's predicate reports the user authenticated.  Then [next]
    is all it does: it returns normally and leaves every field as it was,
    a pending authentication included.  Otherwise [next] is not called,
    whatever the fields hold and however [onLoginSuccess] ends. *)
Theorem X1_next_exactly_when_passing :
  forall (this : This) (context : TurnContext),
    existsb is_next (trace (onTurn context this)) = passes this context
    /\ (passes this context = true ->
        onTurn context this =
          {| completion := Normal tt; final := this; trace := [Next] |}).
Proof.
  intros this context. unfold passes.
  destruct (String.eqb (activity_type (activity context)) "message") eqn:Hm.
  - apply String.eqb_eq in Hm. cbn [negb orb].
    destruct (userIsAuthenticated (authenticationConfig this) context) eqn:Hu.
    + rewrite onTurn_authenticated by assumption. now split.
    + split; [now apply onTurn_blocked | discriminate].
  - rewrite onTurn_not_message by assumption. now split.
Qed.

(** X2. When the user types the pending code and the awaited
    [onLoginSuccess] rejects, the turn throws what it rejected with, sends
    no notice and leaves the pending authentication as it was: the same
    message sent again calls [onLoginSuccess] a second time. *)
Theorem X2_rejected_login_keeps_pending :
  forall (this : This) (context : TurnContext) (code : string) (e : Error),
    activity_type (activity context) = "message" ->
    userIsAuthenticated (authenticationConfig this) context = false ->
    sentCode this = Some true ->
    magicCode this = Some code ->
    toLowerCase (activity_text (activity context)) = toLowerCase code ->
    onLoginSuccess (authenticationConfig this) context (currentAccessToken this) = Throw e ->
    onTurn context this =
      {| completion := Throw e; final := this;
         trace := [OnLoginSuccess context (currentAccessToken this)] |}
    /\ run_turns [context; context] this =
         (this, [OnLoginSuccess context (currentAccessToken this);
                 OnLoginSuccess context (currentAccessToken this)])
    /\ count_onLoginSuccess (snd (run_turns [context; context] this)) = 2.
Proof.
  intros this context code e Hm Hu Hs Hc He Hko.
  assert (Hturn : onTurn context this =
                    {| completion := Throw e; final := this;
                       trace := [OnLoginSuccess context (currentAccessToken this)] |}).
  { rewrite onTurn_submission; [|assumption|assumption|now rewrite Hs].
    now apply (handleMagicCode_rejected _ _ code). }
  split; [exact Hturn|].
  cbn [run_turns]. rewrite Hturn. cbn [final trace]. rewrite Hturn. now split.
Qed.

(** X9. One wrong guess discards the pending authentication: after a
    message that does not match, the next message, whatever its text and so
    the right code too, is answered with the login prompt, [onLoginSuccess]
    is not called, and the access token is gone. *)
Theorem X9_wrong_guess_discards_token :
  forall (this : This) (wrong right : TurnContext) (code : string),
    activity_type (activity wrong) = "message" ->
    activity_type (activity right) = "message" ->
    userIsAuthenticated (authenticationConfig this) wrong = false ->
    userIsAuthenticated (authenticationConfig this) right = false ->
    sentCode this = Some true ->
    magicCode this = Some code ->
    toLowerCase (activity_text (activity wrong)) <> toLowerCase code ->
    run_turns [wrong; right] this =
      (cleared this,
       SendActivity wrong (Text "Authentication Failure")
       :: login_prompt (cleared this) right)
    /\ currentAccessToken (fst (run_turns [wrong; right] this)) = None
    /\ count_onLoginSuccess (snd (run_turns [wrong; right] this)) = 0.
Proof.
  intros this wrong right code Hmw Hmr Huw Hur Hs Hc Hne.
  assert (Hrun : run_turns [wrong; right] this =
                   (cleared this,
                    SendActivity wrong (Text "Authentication Failure")
                    :: login_prompt (cleared this) right)).
  { cbn [run_turns].
    rewrite (onTurn_submission this wrong), (handleMagicCode_mismatch _ _ code);
      try assumption; [|now rewrite Hs].
    cbn [final trace].
    rewrite (onTurn_first_contact (cleared this) right); try assumption; [|reflexivity].
    cbn [final trace fst snd]. now rewrite app_nil_r. }
  rewrite Hrun. cbn [fst snd]. split; [reflexivity|]. split; [reflexivity|].
  unfold count_onLoginSuccess, login_prompt. cbn [filter is_onLoginSuccess].
  destruct (noUserFoundMessage (authenticationConfig (cleared this))) as [notice|];
    [destruct (truthy_string notice)|]; reflexivity.
Qed.

End Gate_runs.

Lemma X2_rejected_login_witness :
  onTurn (Sample.message "A1B2C3D4") Rejecting.pending =
    {| completion := Throw (Other "token store unavailable");
       final := Rejecting.pending;
       trace := [OnLoginSuccess (Sample.message "A1B2C3D4") (Some Sample.token)] |}
  /\ count_onLoginSuccess
       (snd (run_turns [Sample.message "A1B2C3D4"; Sample.message "A1B2C3D4"]
               Rejecting.pending)) = 2.
Proof.
  assert (H := @X2_rejected_login_keeps_pending Sample.collaborators Rejecting.pending
                 (Sample.message "A1B2C3D4") "a1b2c3d4" (Other "token store unavailable")
                 eq_refl eq_refl eq_refl eq_refl eq_refl eq_refl).
  split; [exact (proj1 H) | exact (proj2 (proj2 H))].
Defined.

Lemma X9_wrong_guess_witness :
  currentAccessToken
    (fst (run_turns [Sample.message "deadbeef"; Sample.message "a1b2c3d4"] Sample.pending))
  = None
  /\ count_onLoginSuccess
       (snd (run_turns [Sample.message "deadbeef"; Sample.message "a1b2c3d4"]
               Sample.pending)) = 0.
Proof.
  assert (Hne : toLowerCase "deadbeef" <> toLowerCase "a1b2c3d4") by discriminate.
  exact (proj2 (@X9_wrong_guess_discards_token Sample.collaborators Sample.pending
                  (Sample.message "deadbeef") (Sample.message "a1b2c3d4") "a1b2c3d4"
                  eq_refl eq_refl eq_refl eq_refl eq_refl eq_refl Hne)).
Defined.

(** ** What every state of an instance satisfies *)

Section Reachable_states.

Context {collaborators : Collaborators}.

Lemma same_setup_refl (this : This) : same_setup this this.
Proof. repeat split. Qed.

Lemma onTurn_same_setup (this : This) (context : TurnContext) :
  same_setup (final (onTurn context this)) this.
Proof.
  destruct (onTurn_cases this context) as [[-> _] | [[-> _] | [-> _]]];
    repeat split.
Qed.

Lemma auth_callback_same_setup (this : This) (query : string) (settled : Settled)
    (entropy : nat -> byte) :
  same_setup (final (auth_callback query settled entropy this)) this.
Proof.
  destruct (callback_request_cases this query) as [[e Hreq] | (client & tc & Hreq & _)].
  - rewrite (auth_callback_throws _ _ _ _ e Hreq). repeat split.
  - rewrite (auth_callback_unfold _ _ _ _ client tc Hreq).
    destruct settled; repeat split.
Qed.

Lemma reachable_same_setup (config : AuthenticationConfig) (this0 this : This) :
  constructor config = Normal this0 ->
  reachable config this ->
  same_setup this this0.
Proof.
  intros Hnew. induction 1 as [this Hnew' | this context _ IH | this q st en _ IH].
  - rewrite Hnew in Hnew'. injection Hnew' as <-. apply same_setup_refl.
  - destruct (onTurn_same_setup this context) as (H1 & H2 & H3 & H4 & H5).
    destruct IH as (I1 & I2 & I3 & I4 & I5). repeat split; congruence.
  - destruct (auth_callback_same_setup this q st en) as (H1 & H2 & H3 & H4 & H5).
    destruct IH as (I1 & I2 & I3 & I4 & I5). repeat split; congruence.
Qed.

(** X3. In every state an instance goes through, [sentCode] is true
    exactly when [magicCode] is a non-empty string and exactly when
    [currentAccessToken] is defined; a stored [magicCode] is empty or is
    eight hexadecimal digits in lower case. *)
Theorem X3_pending_fields_agree :
  forall (config : AuthenticationConfig) (this : This),
    reachable config this ->
    truthy_opt_string (magicCode this) = truthy_opt_bool (sentCode this)
    /\ truthy_opt (currentAccessToken this) = truthy_opt_bool (sentCode this)
    /\ (forall magic : string,
          magicCode this = Some magic ->
          magic = ""
          \/ (String.length magic = 8
              /\ all_chars is_hex_digit magic = true
              /\ toLowerCase magic = magic)).
Proof.
  intros config this Hreach.
  destruct (reachable_invariant config this Hreach) as (_ & _ & _ & _ & Hsent & Hidle).
  destruct (truthy_opt_bool (sentCode this)).
  - destruct (Hsent eq_refl) as (magic & Hmagic & Hlen & Hhex & Htoken).
    rewrite Hmagic. cbn [truthy_opt_string].
    rewrite truthy_of_length by lia. repeat split; [exact Htoken|].
    intros magic' Hm. injection Hm as <-. right.
    repeat split; [exact Hlen | exact Hhex | now apply toLowerCase_hex].
  - destruct (Hidle eq_refl) as [Hnone Htoken]. unfold no_pending in Hnone.
    rewrite Hnone, Htoken. repeat split.
    intros magic Hm. rewrite Hm in Hnone. left. now apply truthy_string_empty.
Qed.

(** X4. A turn and a callback, from any fields, leave [knownEndpoints],
    [authenticationConfig], [callbackURL], [oauthClients] and
    [authenticated] as they were; so in every state an instance goes through
    these are the constructor's, and [authenticated] is still false: the
    instance never records a login, the caller's predicate alone decides. *)
Theorem X4_setup_never_changes :
  (forall (this : This) (context : TurnContext),
      same_setup (final (onTurn context this)) this)
  /\ (forall (this : This) (query : string) (settled : Settled) (entropy : nat -> byte),
        same_setup (final (auth_callback query settled entropy this)) this)
  /\ (forall (config : AuthenticationConfig) (this0 this : This),
        constructor config = Normal this0 ->
        reachable config this ->
        same_setup this this0 /\ authenticated this = false).
Proof.
  split; [exact onTurn_same_setup|]. split; [exact auth_callback_same_setup|].
  intros config this0 this Hnew Hreach.
  assert (Hsame := reachable_same_setup config this0 this Hnew Hreach).
  split; [exact Hsame|].
  destruct Hsame as (_ & _ & _ & _ & ->).
  unfold constructor, bindC in Hnew.
  destruct (createOAuthClients knownEndpoints_table config); [|discriminate].
  now injection Hnew as <-.
Qed.

(** X11. In every state an instance goes through, while a code is awaited
    an unauthenticated user message whose text is not eight characters
    long, the empty text among them, is a mismatch: the failure notice is
    sent, [onLoginSuccess] is not called and the pending authentication is
    cleared. *)
Theorem X11_wrong_length_is_mismatch :
  forall (config : AuthenticationConfig) (this : This) (context : TurnContext),
    reachable config this ->
    truthy_opt_bool (sentCode this) = true ->
    activity_type (activity context) = "message" ->
    userIsAuthenticated (authenticationConfig this) context = false ->
    String.length (activity_text (activity context)) <> 8 ->
    onTurn context this =
      {| completion := Normal tt; final := cleared this;
         trace := [SendActivity context (Text "Authentication Failure")] |}.
Proof.
  intros config this context Hreach Hs Hm Hu Hlen.
  destruct (reachable_invariant config this Hreach) as (_ & _ & _ & _ & Hsent & _).
  destruct (Hsent Hs) as (magic & Hmagic & Hlen8 & _).
  rewrite onTurn_submission by assumption.
  apply (handleMagicCode_mismatch _ _ magic Hmagic).
  intros He. apply (f_equal String.length) in He.
  rewrite !length_toLowerCase in He. congruence.
Qed.

(** X12. The Login Card is the same in every state an instance goes
    through and for every message: it is the card of the instance as the
    constructor returned it. *)
Theorem X12_login_card_never_changes :
  forall (config : AuthenticationConfig) (this0 this : This) (c0 c : TurnContext),
    constructor config = Normal this0 ->
    reachable config this ->
    createAuthenticationCard this c = createAuthenticationCard this0 c0.
Proof.
  intros config this0 this c0 c Hnew Hreach.
  destruct (reachable_same_setup config this0 this Hnew Hreach)
    as (_ & Hconfig & Hurl & Hclients & _).
  unfold createAuthenticationCard. now rewrite Hconfig, Hurl, Hclients.
Qed.

(** X13. Chat messages alone never authenticate: from a state an instance
    goes through in which no pending authentication is stored, the freshly
    constructed one among them, any sequence of turns leaves every field as
    it was and calls [onLoginSuccess] not once. *)
Theorem X13_turns_alone_never_log_in :
  forall (config : AuthenticationConfig) (this : This) (contexts : list TurnContext),
    reachable config this ->
    no_pending this ->
    fst (run_turns contexts this) = this
    /\ count_onLoginSuccess (snd (run_turns contexts this)) = 0.
Proof.
  intros config this contexts Hreach Hnone.
  apply run_turns_idle.
  destruct (reachable_invariant config this Hreach) as (_ & _ & _ & _ & Hsent & _).
  destruct (truthy_opt_bool (sentCode this)); [|reflexivity].
  destruct (Hsent eq_refl) as (magic & Hmagic & Hlen & _).
  unfold no_pending in Hnone. rewrite Hmagic in Hnone. cbn in Hnone.
  rewrite truthy_of_length in Hnone by lia. discriminate.
Qed.

End Reachable_states.

Lemma sample_pending_reachable : reachable Sample.config Sample.pending.
Proof.
  exact (reachable_callback Sample.config Sample.fresh "code=abc&state=Github"
           (@Resolved Sample.collaborators "raw-token") Sample.entropy
           (reachable_new Sample.config Sample.fresh eq_refl)).
Defined.

Lemma X3_pending_fields_witness :
  truthy_opt_string (magicCode Sample.pending) = truthy_opt_bool (sentCode Sample.pending)
  /\ truthy_opt (currentAccessToken Sample.pending)
     = truthy_opt_bool (sentCode Sample.pending).
Proof.
  assert (H := @X3_pending_fields_agree Sample.collaborators Sample.config Sample.pending
                 sample_pending_reachable).
  split; [exact (proj1 H) | exact (proj1 (proj2 H))].
Defined.

Lemma X4_setup_witness :
  same_setup Sample.pending Sample.fresh /\ authenticated Sample.pending = false.
Proof.
  exact (proj2 (proj2 (@X4_setup_never_changes Sample.collaborators))
           Sample.config Sample.fresh Sample.pending eq_refl sample_pending_reachable).
Defined.

Lemma X11_wrong_length_witness :
  onTurn (Sample.message "") Sample.pending =
    {| completion := Normal tt; final := cleared Sample.pending;
       trace := [SendActivity (Sample.message "") (Text "Authentication Failure")] |}.
Proof.
  assert (Hlen : String.length (activity_text (activity (Sample.message ""))) <> 8)
    by discriminate.
  exact (@X11_wrong_length_is_mismatch Sample.collaborators Sample.config Sample.pending
           (Sample.message "") sample_pending_reachable eq_refl eq_refl eq_refl Hlen).
Defined.

Lemma X12_login_card_witness :
  createAuthenticationCard Sample.pending (Sample.message "a1b2c3d4") =
  createAuthenticationCard Sample.fresh (Sample.message "hello").
Proof.
  exact (@X12_login_card_never_changes Sample.collaborators Sample.config Sample.fresh
           Sample.pending (Sample.message "hello") (Sample.message "a1b2c3d4")
           eq_refl sample_pending_reachable).
Defined.

Lemma X13_turns_alone_witness :
  fst (run_turns [Sample.message "a1b2c3d4"; Sample.message "deadbeef"] Sample.fresh)
  = Sample.fresh
  /\ count_onLoginSuccess
       (snd (run_turns [Sample.message "a1b2c3d4"; Sample.message "deadbeef"]
               Sample.fresh)) = 0.
Proof.
  exact (@X13_turns_alone_never_log_in Sample.collaborators Sample.config Sample.fresh
           [Sample.message "a1b2c3d4"; Sample.message "deadbeef"]
           (reachable_new Sample.config Sample.fresh eq_refl) eq_refl).
Defined.

(** ** More on the Callback Handler *)

Section Callback_runs.

Context {collaborators : Collaborators}.

(** X5. The request part of the handler throws the [TypeError] of line 107
    for every query string without an ampersand, the empty one among them,
    before any call is made.  For a query string with an ampersand the
    first two segments exist, and the request calls [getToken] once when
    [decodeURIComponent] returns, or throws what [decodeURIComponent] threw,
    again before any call.  No field changes in either case. *)
Theorem X5_request_fails_without_ampersand :
  forall (this : This) (query : string),
    (has_char "&" query = false ->
     callback_request query this =
       {| completion := Throw (TypeError "slice"); final := this; trace := [] |})
    /\ (has_char "&" query = true ->
        exists (seg0 seg1 : string) (rest : list string),
          split "&" query = seg0 :: seg1 :: rest
          /\ callback_request query this =
               match decodeURIComponent (slice 6 seg1) with
               | Normal decoded =>
                   {| completion :=
                        Normal (selectOAuthClient (oauthClients this) decoded,
                                {| code := slice 5 seg0;
                                   token_redirect_uri := callbackURL this |});
                      final := this;
                      trace := [GetToken (selectOAuthClient (oauthClients this) decoded)
                                  {| code := slice 5 seg0;
                                     token_redirect_uri := callbackURL this |}] |}
               | Throw e => {| completion := Throw e; final := this; trace := [] |}
               end).
Proof.
  intros this query. split; intros Hamp.
  - apply (callback_request_one_segment this query query). now apply split_without.
  - destruct (split_with "&" query Hamp) as (seg0 & seg1 & rest & Hsplit).
    exists seg0, seg1, rest. split; [exact Hsplit|].
    destruct (decodeURIComponent (slice 6 seg1)) as [decoded|e] eqn:Hdecode.
    + now apply (callback_request_segments _ _ seg0 seg1 rest decoded).
    + now apply (callback_request_undecodable _ _ seg0 seg1 rest e).
Qed.

Lemma selectOAuthClient_identifier (clients : OAuthClients) (p : StrategyType) :
  distinct_identifiers ->
  selectOAuthClient clients (StrategyType_value p) = provider_client clients p.
Proof.
  intros (Hfa & Hga & Hgf). unfold selectOAuthClient.
  destruct p; cbn [provider_client].
  - now rewrite String.eqb_refl.
  - apply String.eqb_neq in Hfa. now rewrite Hfa, String.eqb_refl.
  - apply String.eqb_neq in Hga, Hgf. now rewrite Hga, Hgf, String.eqb_refl.
Qed.

Lemma configured_provider_listed (config : AuthenticationConfig) (p : StrategyType)
    (pc : ProviderConfig) :
  provider_config config p = Some pc -> In (p, pc) (configured_providers config).
Proof.
  intros Hp. unfold configured_providers. apply in_flat_map. exists p. split.
  - destruct p; cbn [all_providers In]; auto.
  - rewrite Hp. now left.
Qed.

(** X6. When the three provider identifiers are different strings, the
    button of a configured provider and the callback it leads to use one
    client: the Login Card has an action whose URL is built by the
    provider's client with the provider's identifier as state, and a
    callback whose state decodes to that identifier calls [getToken] on the
    same client. *)
Theorem X6_state_selects_its_provider :
  forall (this : This) (context : TurnContext) (p : StrategyType) (pc : ProviderConfig)
         (query seg0 seg1 : string) (rest : list string),
    distinct_identifiers ->
    provider_config (authenticationConfig this) p = Some pc ->
    split "&" query = seg0 :: seg1 :: rest ->
    decodeURIComponent (slice 6 seg1) = Normal (StrategyType_value p) ->
    In {| action_type := "openUrl";
          action_value :=
            authorizeURL (provider_client (oauthClients this) p)
              {| redirect_uri := callbackURL this;
                 scope := spec_scope p pc;
                 state := StrategyType_value p |};
          action_title := spec_label p pc |}
       (card_actions (createAuthenticationCard this context))
    /\ callback_request query this =
         {| completion :=
              Normal (provider_client (oauthClients this) p,
                      {| code := slice 5 seg0; token_redirect_uri := callbackURL this |});
            final := this;
            trace := [GetToken (provider_client (oauthClients this) p)
                        {| code := slice 5 seg0;
                           token_redirect_uri := callbackURL this |}] |}.
Proof.
  intros this context p pc query seg0 seg1 rest Hdistinct Hp Hsplit Hdecode. split.
  - unfold card_actions. rewrite createAuthenticationCard_spec.
    cbn [attachments flat_map card_buttons]. rewrite app_nil_r.
    apply (in_map (spec_action this) _ (p, pc)).
    now apply configured_provider_listed.
  - rewrite (callback_request_segments _ _ seg0 seg1 rest _ Hsplit Hdecode).
    now rewrite (selectOAuthClient_identifier _ p Hdistinct).
Qed.

(** X7. In every state an instance goes through, the client of each
    provider is the one [create] returned at construction: for the
    provider's credentials and endpoints when the configuration has the
    provider, and otherwise for the placeholder options, whose [id] and
    [secret] are empty.  The handler does not look at the configuration: when
    Active Directory is not configured, a callback whose state is none of
    the identifiers calls [getToken] on such a placeholder client. *)
Theorem X7_unconfigured_provider_exchanges_on_placeholder :
  forall (config : AuthenticationConfig) (this : This),
    reachable config this ->
    (forall p : StrategyType,
        createOAuth (client_options knownEndpoints_table config p)
          = Normal (provider_client (oauthClients this) p))
    /\ (forall p : StrategyType,
          provider_config config p = None ->
          createOAuth (placeholder_options knownEndpoints_table)
            = Normal (provider_client (oauthClients this) p))
    /\ (forall (query seg0 seg1 : string) (rest : list string) (decoded : string),
          activeDirectory config = None ->
          split "&" query = seg0 :: seg1 :: rest ->
          decodeURIComponent (slice 6 seg1) = Normal decoded ->
          decoded <> StrategyType_value Facebook ->
          decoded <> StrategyType_value Github ->
          exists placeholder : OAuthClient,
            createOAuth (placeholder_options knownEndpoints_table) = Normal placeholder
            /\ trace (callback_request query this) =
                 [GetToken placeholder
                    {| code := slice 5 seg0;
                       token_redirect_uri := "http://localhost:3978/auth/callback" |}]).
Proof.
  intros config this Hreach.
  destruct (reachable_invariant config this Hreach) as (_ & _ & Hurl & Hclients & _).
  assert (Hall : forall p : StrategyType,
             createOAuth (client_options knownEndpoints_table config p)
             = Normal (provider_client (oauthClients this) p))
    by (apply createOAuthClients_normal; exact Hclients).
  split; [exact Hall|]. split.
  - intros p Hp. specialize (Hall p). unfold client_options in Hall.
    now rewrite Hp in Hall.
  - intros query seg0 seg1 rest decoded Had Hsplit Hdecode Hf Hg.
    exists (activeDirectoryOAuthClient (oauthClients this)). split.
    + specialize (Hall ActiveDirectory). unfold client_options in Hall.
      cbn [provider_config provider_client] in Hall. now rewrite Had in Hall.
    + rewrite (callback_request_segments _ _ seg0 seg1 rest decoded Hsplit Hdecode).
      cbn [trace]. now rewrite selectOAuthClient_default, Hurl.
Qed.


(** X10. The last callback wins: when two exchanges succeed one after the
    other, the fields are those the second alone would have left, so the
    code and the access token of the first are lost. *)
Theorem X10_second_callback_overwrites :
  forall (this : This) (query1 query2 : string) (result1 result2 : TokenResult)
         (entropy1 entropy2 : nat -> byte) (request1 request2 : OAuthClient * TokenConfig),
    completion (callback_request query1 this) = Normal request1 ->
    completion (callback_request query2 this) = Normal request2 ->
    let first := auth_callback query1 (Resolved result1) entropy1 this in
    let both := auth_callback query2 (Resolved result2) entropy2 (final first) in
    final both = final (auth_callback query2 (Resolved result2) entropy2 this)
    /\ magicCode (final both) = Some (toString_hex (randomBytes 4 entropy2))
    /\ currentAccessToken (final both)
       = Some (accessToken_create (fst request2) result2)
    /\ sentCode (final both) = Some true.
Proof.
  intros this query1 query2 result1 result2 entropy1 entropy2 request1 request2
    Hreq1 Hreq2 first both. subst first both.
  destruct (callback_request_cases this query1) as [[e Hthrow] | (c1 & tc1 & Hn1 & _)].
  { rewrite Hthrow in Hreq1. discriminate. }
  rewrite (auth_callback_unfold _ _ _ _ c1 tc1 Hn1). cbn [final].
  set (mid := stored (accessToken_create c1 result1)
                (toString_hex (randomBytes 4 entropy1)) this).
  destruct (split_shape "&" query2) as [[seg Hone] | (seg0 & seg1 & rest & Hsplit)].
  { rewrite (callback_request_one_segment this query2 seg Hone) in Hreq2.
    discriminate. }
  destruct (decodeURIComponent (slice 6 seg1)) as [decoded|e] eqn:Hdecode.
  2:{ rewrite (callback_request_undecodable _ _ seg0 seg1 rest e Hsplit Hdecode) in Hreq2.
      discriminate. }
  pose proof (callback_request_segments this _ seg0 seg1 rest decoded Hsplit Hdecode) as Ha.
  pose proof (callback_request_segments mid _ seg0 seg1 rest decoded Hsplit Hdecode) as Hb.
  rewrite Ha in Hreq2. cbn [completion] in Hreq2. injection Hreq2 as <-.
  rewrite (auth_callback_unfold _ _ _ _ _ _ Ha), (auth_callback_unfold _ _ _ _ _ _ Hb).
  cbn [final fst]. repeat split.
Qed.

End Callback_runs.

Lemma sample_identifiers_distinct : @distinct_identifiers Sample.collaborators.
Proof. repeat split; discriminate. Defined.

Lemma X5_request_witness :
  callback_request "" Sample.fresh =
    {| completion := Throw (TypeError "slice"); final := Sample.fresh; trace := [] |}
  /\ exists (seg0 seg1 : string) (rest : list string),
       split "&" "code=abc&state=%zz" = seg0 :: seg1 :: rest.
Proof.
  split.
  - exact (proj1 (@X5_request_fails_without_ampersand Sample.collaborators Sample.fresh "")
             eq_refl).
  - destruct (proj2 (@X5_request_fails_without_ampersand Sample.collaborators Sample.fresh
                       "code=abc&state=%zz") eq_refl)
      as (seg0 & seg1 & rest & Hsplit & _).
    now exists seg0, seg1, rest.
Defined.

Lemma X6_state_selects_witness :
  callback_request "code=abc&state=Github" Sample.fresh =
    {| completion :=
         Normal (githubOAuthClient (oauthClients Sample.fresh),
                 {| code := "abc";
                    token_redirect_uri := "http://localhost:3978/auth/callback" |});
       final := Sample.fresh;
       trace := [GetToken (githubOAuthClient (oauthClients Sample.fresh))
                   {| code := "abc";
                      token_redirect_uri := "http://localhost:3978/auth/callback" |}] |}.
Proof.
  exact (proj2
           (@X6_state_selects_its_provider Sample.collaborators Sample.fresh
              (Sample.message "hello") Github (Sample.provider "gh-id" "gh-secret")
              "code=abc&state=Github" "code=abc" "state=Github" []
              sample_identifiers_distinct eq_refl eq_refl eq_refl)).
Defined.

Lemma X7_placeholder_witness :
  exists placeholder : ModuleOptions,
    client_id placeholder = "" /\ client_secret placeholder = ""
    /\ trace (callback_request "code=abc&state=Twitter" Sample.fresh) =
         [@GetToken Sample.collaborators placeholder
            {| code := "abc"; token_redirect_uri := "http://localhost:3978/auth/callback" |}].
Proof.
  assert (Hf : "Twitter" <> @StrategyType_value Sample.collaborators Facebook)
    by discriminate.
  assert (Hg : "Twitter" <> @StrategyType_value Sample.collaborators Github)
    by discriminate.
  destruct (proj2 (proj2
              (@X7_unconfigured_provider_exchanges_on_placeholder Sample.collaborators
                 Sample.config Sample.fresh
                 (reachable_new Sample.config Sample.fresh eq_refl)))
              "code=abc&state=Twitter" "code=abc" "state=Twitter" [] "Twitter"
              eq_refl eq_refl eq_refl Hf Hg)
    as (placeholder & Hcreate & Htrace).
  exists placeholder. injection Hcreate as <-.
  split; [reflexivity | split; [reflexivity | exact Htrace]].
Defined.


Lemma X10_second_callback_witness :
  magicCode
    (final (auth_callback "code=xyz&state=Facebook"
              (@Resolved Sample.collaborators "other-token") (fun _ => x0f)
              (final (auth_callback "code=abc&state=Github"
                        (@Resolved Sample.collaborators "raw-token") Sample.entropy
                        Sample.fresh))))
  = Some "0f0f0f0f".
Proof.
  exact (proj1 (proj2
           (@X10_second_callback_overwrites Sample.collaborators Sample.fresh
              "code=abc&state=Github" "code=xyz&state=Facebook" "raw-token" "other-token"
              Sample.entropy (fun _ => x0f)
              (githubOAuthClient (oauthClients Sample.fresh),
               {| code := "abc";
                  token_redirect_uri := "http://localhost:3978/auth/callback" |})
              (facebookOAuthClient (oauthClients Sample.fresh),
               {| code := "xyz";
                  token_redirect_uri := "http://localhost:3978/auth/callback" |})
              eq_refl eq_refl))).
Defined.

(** ** More on construction *)

Section Construction.

Context {collaborators : Collaborators}.

(** X14. Construction first asks the library for clients with empty
    credentials (lines 140 to 153), whatever the configuration: when the
    library's [create] throws on those placeholder options, building the
    clients and the constructor throw the same value for every
    configuration, one with all three providers configured included. *)
Theorem X14_placeholder_refused_fails_construction :
  forall (config : AuthenticationConfig) (e : Error),
    createOAuth (placeholder_options knownEndpoints_table) = Throw e ->
    createOAuthClients knownEndpoints_table config = Throw e
    /\ constructor config = Throw e.
Proof.
  intros config e Hthrow.
  assert (Hclients : createOAuthClients knownEndpoints_table config = Throw e).
  { unfold createOAuthClients, placeholder_options in *. now rewrite Hthrow. }
  split; [exact Hclients|]. unfold constructor. now rewrite Hclients.
Qed.

End Construction.

Lemma X14_placeholder_refused_witness :
  @constructor Strict.collaborators Strict.config =
    Throw (Other "client.id is not allowed to be empty").
Proof.
  exact (proj2 (@X14_placeholder_refused_fails_construction Strict.collaborators
                  Strict.config (Other "client.id is not allowed to be empty") eq_refl)).
Defined.
